(** * telegram-ai: the run event processor and the prompt scheduler

    A shallow embedding of [agent.ts] (function registry, [EventHandler]) and
    of [index.ts] (tool handlers, [createPrompt], the caches) with the
    properties of the orchestration core stated over it.

    Conventions.
    - The process-wide objects of the program ([db], [cronJobs],
      [assistants], [threads], the OpenAI [client], the console) are the
      fields of one record [World] that every operation threads through.
    - A JavaScript object used as a dictionary is a [gmap]; an absent key
      reads as [None] ([undefined]).  This is how [cronJobs] (keyed by row
      ids), [assistants] and [threads] (keyed by tenant numbers) read.  The
      [functions] object is read by names that the model chooses, so there
      the prototype of the object is part of the model ([inherited]).
    - A [CronJob] is an object that is shared by reference: the objects
      live in a store ([timers], indexed by a handle) and [cronJobs] holds
      handles, so that stopping a job through the map is seen by everyone.
    - An [async] function is run to completion at the point where it is
      called; a rejected promise is a [Thrown] result.  For the events of a
      stream this is the schedule in which the handling of an event is over
      before the next event is emitted (the program does not await it).
    - Of the console, what [console.error] writes is kept ([stderr]).
    - A call of a library that checks its arguments ([new CronJob]) ends as
      the library ends it: with the object, or with the error it throws. *)

From Stdlib Require Import ZArith String List Bool Lia.
From stdpp Require Import base option list gmap strings fin_maps pretty.

Set Warnings "-register-all".

Local Open Scope string_scope.
Local Open Scope list_scope.
Local Open Scope Z_scope.

(** ** Rows of the store ([interface Tenant], [interface Job]) *)

Record Tenant := mkTenant {
  tenant_number : string;
  tenant_system : string;
  tenant_timezone : string
}.

Record Job := mkJob {
  job_id : Z;
  job_tenant : string;
  job_hour : Z;
  job_minute : Z;
  job_prompt : string
}.

(** ** The store ([better-sqlite3])

    The two tables in row order, and the connection's last insert rowid,
    which [run] reports next to the number of changed rows. *)

Record Database := mkDatabase {
  tenants : list Tenant;
  jobs : list Job;
  lastInsertRowid : Z
}.

Record RunResult := mkRunResult {
  changes : nat;
  result_lastInsertRowid : Z
}.

(** [SELECT system FROM tenants WHERE number = ?], [.pluck().get(n)] *)
Definition select_system (d : Database) (n : string) : option string :=
  tenant_system <$> head (filter (λ t, tenant_number t = n) (tenants d)).

(** [SELECT timezone FROM tenants WHERE number = ?], [.pluck().get(n)] *)
Definition select_timezone (d : Database) (n : string) : option string :=
  tenant_timezone <$> head (filter (λ t, tenant_number t = n) (tenants d)).

(** [SELECT * FROM jobs WHERE id = ?], [.get(i)] *)
Definition select_job (d : Database) (i : Z) : option Job :=
  head (filter (λ j, job_id j = i) (jobs d)).

(** The [WHERE tenant = ? AND id = ?] clause of the two mutations. *)
Definition owned_by (t : string) (i : Z) (j : Job) : Prop :=
  job_tenant j = t ∧ job_id j = i.

Global Instance owned_by_dec t i j : Decision (owned_by t i j).
Proof. unfold owned_by. apply _. Defined.

(** [COALESCE(?, column)] *)
Definition COALESCE {A} (x : option A) (column : A) : A :=
  match x with Some v => v | None => column end.

(** [UPDATE jobs SET prompt = COALESCE(?, prompt), hour = COALESCE(?, hour),
    minute = COALESCE(?, minute) WHERE tenant = ? AND id = ?] *)
Definition update_job_row (p : option string) (h m : option Z) (j : Job) : Job :=
  mkJob (job_id j) (job_tenant j)
        (COALESCE h (job_hour j)) (COALESCE m (job_minute j))
        (COALESCE p (job_prompt j)).

Definition update_jobs (p : option string) (h m : option Z) (t : string) (i : Z)
    (d : Database) : RunResult * Database :=
  let rows := (λ j, if decide (owned_by t i j) then update_job_row p h m j else j)
                <$> jobs d in
  (mkRunResult (length (filter (owned_by t i) (jobs d))) (lastInsertRowid d),
   mkDatabase (tenants d) rows (lastInsertRowid d)).

(** [DELETE FROM jobs WHERE tenant = ? AND id = ?] *)
Definition delete_jobs (t : string) (i : Z) (d : Database) : RunResult * Database :=
  (mkRunResult (length (filter (owned_by t i) (jobs d))) (lastInsertRowid d),
   mkDatabase (tenants d) (filter (λ j, ¬ owned_by t i j) (jobs d))
              (lastInsertRowid d)).

(** [UPDATE tenants SET system = COALESCE(?, system),
    timezone = COALESCE(?, timezone) WHERE number = ?] *)
Definition update_tenant_row (s z : option string) (t : Tenant) : Tenant :=
  mkTenant (tenant_number t) (COALESCE s (tenant_system t))
           (COALESCE z (tenant_timezone t)).

Definition update_tenants (s z : option string) (n : string) (d : Database)
    : RunResult * Database :=
  let rows := (λ t, if decide (tenant_number t = n) then update_tenant_row s z t else t)
                <$> tenants d in
  (mkRunResult (length (filter (λ t, tenant_number t = n) (tenants d)))
               (lastInsertRowid d),
   mkDatabase rows (jobs d) (lastInsertRowid d)).

(** ** Timers ([cron])

    [new CronJob(`${job.minute} ${job.hour} * * *`, onTick, null, true, timeZone)]:
    the pattern is kept as its two numbers, [onTick] as the job the closure
    captures, and [running] is what [start = true] and [stop()] set. *)

Record CronJob := mkCronJob {
  cron_minute : Z;
  cron_hour : Z;
  onTick : Job;
  timeZone : option string;
  running : bool
}.

Definition stop (c : CronJob) : CronJob :=
  mkCronJob (cron_minute c) (cron_hour c) (onTick c) (timeZone c) false.

(** What the constructor returns when it accepts its arguments: the timer
    of the job, started. *)
Definition running_timer (job : Job) (tz : option string) : CronJob :=
  mkCronJob (job_minute job) (job_hour job) job tz true.

(** The two numbers of the pattern are a minute and an hour. *)
Definition pattern_accepted (job : Job) : bool :=
  (0 <=? job_minute job) && (job_minute job <=? 59)
  && (0 <=? job_hour job) && (job_hour job <=? 23).

(** The time zone is one of those the constructor accepts ([known]), or
    none is given ([undefined]). *)
Definition zone_accepted (known : string → bool) (tz : option string) : bool :=
  match tz with
  | Some z => known z
  | None => true
  end.

Definition cron_accepts (known : string → bool) (job : Job) (tz : option string)
    : bool :=
  zone_accepted known tz && pattern_accepted job.

(** ** JavaScript values, errors and completions *)

(** The values that cross the tool boundary ([JSON.parse] results, handler
    results).  Numbers are the integers; [JUndefined] is [undefined]. *)
Inductive json :=
| JUndefined
| JNull
| JBool (b : bool)
| JNum (z : Z)
| JStr (s : string)
| JArr (items : list json)
| JObj (fields : list (string * json)).

(** A thrown [Error] object: its [name] and its [message]. *)
Record Exn := mkExn {
  exn_name : string;
  exn_message : string
}.

Definition TypeError (m : string) : Exn := mkExn "TypeError" m.
Definition SyntaxError (m : string) : Exn := mkExn "SyntaxError" m.
Definition APIError (m : string) : Exn := mkExn "APIError" m.
Definition Error (m : string) : Exn := mkExn "Error" m.

(** How a call (or an awaited promise) ends. *)
Inductive Completion (A : Type) :=
| Returned (a : A)
| Thrown (e : Exn).

Arguments Returned {A} a.
Arguments Thrown {A} e.

Definition is_thrown {A} (c : Completion A) : bool :=
  match c with Thrown _ => true | Returned _ => false end.

(** ** Parameter schemas ([zod])

    The fragment of [zod] used by the registrations: an object schema whose
    fields are strings or bounded integers, required unless [.optional()]
    or [.default(_)] was applied. *)

Inductive ZodType :=
| ZodString
| ZodInt (min max : option Z).

Record ZodField := mkZodField {
  zod_type : ZodType;
  zod_required : bool
}.

Abbreviation ZodObject := (list (string * ZodField)).

Definition json_field (k : string) (fields : list (string * json)) : json :=
  match find (λ kv, String.eqb (fst kv) k) fields with
  | Some kv => snd kv
  | None => JUndefined
  end.

Definition zod_type_accepts (t : ZodType) (v : json) : bool :=
  match t, v with
  | ZodString, JStr _ => true
  | ZodInt lo hi, JNum z =>
      match lo with Some l => l <=? z | None => true end
      && match hi with Some h => z <=? h | None => true end
  | _, _ => false
  end.

Definition zod_field_accepts (f : ZodField) (v : json) : bool :=
  match v with
  | JUndefined => negb (zod_required f)
  | _ => zod_type_accepts (zod_type f) v
  end.

(** [schema.safeParse(v).success] *)
Definition conforms (schema : ZodObject) (v : json) : bool :=
  match v with
  | JObj fields =>
      forallb (λ kf, zod_field_accepts (snd kf) (json_field (fst kf) fields)) schema
  | _ => false
  end.

(** ** The OpenAI service as the program sees it *)

Inductive MessageContent :=
| TextContentBlock (value : string)
| OtherContentBlock (type : string).

Record Message := mkMessage {
  role : string;
  content : list MessageContent
}.

Record AssistantTool := mkAssistantTool {
  tool_name : string;
  tool_description : string;
  tool_parameters : ZodObject
}.

Record Assistant := mkAssistant {
  assistant_id : string;
  assistant_model : string;
  instructions : string;
  assistant_tools : list AssistantTool
}.

Record ToolCall := mkToolCall {
  call_id : string;
  function_name : string;
  function_arguments : string
}.

Record ToolOutput := mkToolOutput {
  tool_call_id : string;
  output : option string
}.

Record LastError := mkLastError {
  error_code : string;
  error_message : string
}.

(** [OpenAI.Beta.Threads.Runs.Run]; [required_action] is flattened to the
    list [required_action?.submit_tool_outputs.tool_calls || []]. *)
Record Run := mkRun {
  run_id : string;
  thread_id : string;
  tool_calls : list ToolCall;
  last_error : option LastError
}.

(** [AssistantStreamEvent], a union tagged by [event.event]. *)
Inductive AssistantStreamEvent :=
| thread_run_created (data : Run)
| thread_run_queued (data : Run)
| thread_run_in_progress (data : Run)
| thread_run_requires_action (data : Run)
| thread_run_completed (data : Run)
| thread_run_incomplete (data : Run)
| thread_run_failed (data : Run)
| thread_run_cancelling (data : Run)
| thread_run_cancelled (data : Run)
| thread_run_expired (data : Run)
| other_event (event : string).

(** An event stream that has ended: the events it yielded and the error
    that ended the iteration, if one did. *)
Record AssistantStream := mkAssistantStream {
  stream_events : list AssistantStreamEvent;
  stream_error : option Exn
}.

Record Submission := mkSubmission {
  sub_thread : string;
  sub_run : string;
  sub_outputs : list ToolOutput
}.

(** The state of the service: thread metadata ([metadata.tenant] by thread
    id), the messages [messages.list] returns for a thread (newest first),
    the assistants by id, the tool output batches received, and a counter
    for the ids it hands out. *)
Record OpenAI := mkOpenAI {
  api_threads : gmap string string;
  api_messages : gmap string (list Message);
  api_assistants : gmap string Assistant;
  api_submitted : list Submission;
  api_next : nat
}.

(** ** The process state *)

(** Next to the objects of the program, the process has what its runtime
    knows about time zones: [zones] holds for the time zone names that the
    constructor of [CronJob] accepts.  The program asks it and never changes
    it. *)
Record World := mkWorld {
  db : Database;
  cronJobs : gmap Z nat;
  timers : list CronJob;
  assistants : gmap string Assistant;
  threads : gmap string string;
  client : OpenAI;
  stderr : list string;
  zones : string → bool
}.

Definition set_db (d : Database) (w : World) : World :=
  mkWorld d (cronJobs w) (timers w) (assistants w) (threads w) (client w) (stderr w)
          (zones w).

Definition set_timers (m : gmap Z nat) (t : list CronJob) (w : World) : World :=
  mkWorld (db w) m t (assistants w) (threads w) (client w) (stderr w) (zones w).

Definition set_assistants (a : gmap string Assistant) (w : World) : World :=
  mkWorld (db w) (cronJobs w) (timers w) a (threads w) (client w) (stderr w) (zones w).

Definition set_threads (t : gmap string string) (w : World) : World :=
  mkWorld (db w) (cronJobs w) (timers w) (assistants w) t (client w) (stderr w) (zones w).

Definition set_client (c : OpenAI) (w : World) : World :=
  mkWorld (db w) (cronJobs w) (timers w) (assistants w) (threads w) c (stderr w) (zones w).

(** [console.error(label, error)] *)
Definition console_error (label : string) (w : World) : World :=
  mkWorld (db w) (cronJobs w) (timers w) (assistants w) (threads w) (client w)
          (stderr w ++ [label]) (zones w).

(** * agent.ts *)

(** ** The function registry

    [functions] and [tools], the two module-level dictionaries.  A handler
    receives the parsed arguments and the thread id; what it does to the
    process is a change of the [World].  [tools] keeps the order of first
    insertion, which is the order [Object.values] lists it in.

    [functions] is a plain object that is read by name, so a name that was
    never registered still reads as what the object inherits from its
    prototype.  [functions] holds the properties of the object itself, and
    [inherited] what the prototype gives for a name when called on the
    object with these properties: the function behind the name, or [None]
    when the name reads as [undefined] or as something that cannot be
    called. *)

Abbreviation Handler := (json → string → World → Completion json * World).

Record Registry := mkRegistry {
  functions : gmap string Handler;
  tools : list (string * AssistantTool);
  inherited : gmap string Handler → string → option Handler
}.

(** [const functions = {}], [const tools = {}]; the prototype of the
    object literal is the one the runtime has. *)
Definition no_functions (Object_prototype : gmap string Handler → string → option Handler)
    : Registry :=
  mkRegistry ∅ [] Object_prototype.

(** [functions[name]], where it can be called. *)
Definition function_named (reg : Registry) (name : string) : option Handler :=
  match functions reg !! name with
  | Some fn => Some fn
  | None => inherited reg (functions reg) name
  end.

(** [o[k] = v] on an object whose key order is observed (keys that are not
    array indices: a new key goes last, an old key keeps its place). *)
Fixpoint assign {A} (k : string) (v : A) (o : list (string * A)) : list (string * A) :=
  match o with
  | [] => [(k, v)]
  | (k', v') :: o' =>
      if String.eqb k' k then (k, v) :: o' else (k', v') :: assign k v o'
  end.

Definition registerFunction (name description : string) (parameters : ZodObject)
    (fn : Handler) (reg : Registry) : Registry :=
  mkRegistry (<[name := fn]> (functions reg))
             (assign name (mkAssistantTool name description parameters) (tools reg))
             (inherited reg).

(** A call of [registerFunction], and a sequence of them in order. *)
Record Registration := mkRegistration {
  reg_name : string;
  reg_description : string;
  reg_parameters : ZodObject;
  reg_fn : Handler
}.

Definition registerFunctions (rs : list Registration) (reg : Registry) : Registry :=
  foldl (λ reg r, registerFunction (reg_name r) (reg_description r)
                    (reg_parameters r) (reg_fn r) reg) reg rs.

(** [openai.beta.assistants.create({ model, instructions, tools })]: the
    service stores the assistant under a fresh id and returns it. *)
Definition assistants_create (model instr : string) (tls : list AssistantTool)
    (api : OpenAI) : Assistant * OpenAI :=
  let a := mkAssistant ("asst_" +:+ pretty (api_next api)) model instr tls in
  (a, mkOpenAI (api_threads api) (api_messages api)
               (<[assistant_id a := a]> (api_assistants api))
               (api_submitted api) (S (api_next api))).

Definition createAssistant (reg : Registry) (model instr : string) (w : World)
    : Assistant * World :=
  let '(a, api) := assistants_create model instr (snd <$> tools reg) (client w) in
  (a, set_client api w).

(** ** The promise of the caller

    [resolve] is the resolver of one promise; [None] is a promise that is
    still pending, and resolving a settled promise changes nothing. *)

Abbreviation Promise := (option string).

Definition resolve (value : string) (p : Promise) : Promise :=
  match p with
  | Some _ => p
  | None => Some value
  end.

(** [this.client.beta.threads.messages.list(threadId)], its [data] *)
Definition messages_list (threadId : string) (w : World) : Completion (list Message) :=
  match api_messages (client w) !! threadId with
  | Some ms => Returned ms
  | None => Thrown (APIError "No thread found")
  end.

(** [(messages.data ?? []).find((m) => m?.role === "assistant")?.content?.[0]] *)
Definition answer_of (messages : list Message) : option MessageContent :=
  match find (λ m, String.eqb (role m) "assistant") messages with
  | Some m => head (content m)
  | None => None
  end.

(** [`Der Run ist fehlgeschlagen: ${event.data.last_error?.message}`] *)
Definition failure_text (data : Run) : string :=
  "Der Run ist fehlgeschlagen: " +:+
  match last_error data with
  | Some e => error_message e
  | None => "undefined"
  end.

(** [Promise.all]: the values in order, or the first rejection. *)
Fixpoint Promise_all {A} (rs : list (Completion A)) : Completion (list A) :=
  match rs with
  | [] => Returned []
  | Thrown e :: _ => Thrown e
  | Returned a :: rs' =>
      match Promise_all rs' with
      | Returned l => Returned (a :: l)
      | Thrown e => Thrown e
      end
  end.

Definition record_submission (threadId runId : string) (outs : list ToolOutput)
    (api : OpenAI) : OpenAI :=
  mkOpenAI (api_threads api) (api_messages api) (api_assistants api)
           (api_submitted api ++ [mkSubmission threadId runId outs]) (api_next api).

(** What a listener of ["event"] does with one event: [None] when the
    recursion budget of the model is used up. *)
Abbreviation Listener :=
  (AssistantStreamEvent → Promise → World → option (Promise * World)).

(** [for await (const event of stream) this.emit("event", event, resolve)] *)
Fixpoint emit_all (emit : Listener) (events : list AssistantStreamEvent)
    (p : Promise) (w : World) : option (Promise * World) :=
  match events with
  | [] => Some (p, w)
  | event :: rest =>
      match emit event p w with
      | Some (p1, w1) => emit_all emit rest p1 w1
      | None => None
      end
  end.

Section EventHandler.

(** The runtime and the service are taken as they come: [JSON.parse]
    ([None] is a [SyntaxError]), [JSON.stringify] ([None] is [undefined]),
    and the answer of the service to a batch of tool outputs, which is the
    stream it sends back and the state it is in by then. *)
Variable JSON_parse : string → option json.
Variable JSON_stringify : json → option string.
Variable submitToolOutputsStream :
  OpenAI → string → string → list ToolOutput → AssistantStream * OpenAI.

(** [{ tool_call_id: toolCall.id, output: JSON.stringify(await fn(args, threadId)) }] *)
Definition invoke (fn : Handler) (args : json) (threadId : string)
    (toolCall : ToolCall) (w : World) : Completion ToolOutput * World :=
  let '(result, w1) := fn args threadId w in
  (match result with
   | Returned v => Returned (mkToolOutput (call_id toolCall) (JSON_stringify v))
   | Thrown e => Thrown e
   end, w1).

(** The callback mapped over the tool calls of a batch. *)
Definition callTool (reg : Registry) (threadId : string) (toolCall : ToolCall)
    (w : World) : Completion ToolOutput * World :=
  match JSON_parse (function_arguments toolCall) with
  | None => (Thrown (SyntaxError "Unexpected token in JSON"), w)
  | Some args =>
      match function_named reg (function_name toolCall) with
      | None =>
          (Thrown (TypeError "functions[toolCall.function.name] is not a function"), w)
      | Some fn => invoke fn args threadId toolCall w
      end
  end.

(** [tool_calls.map(async (toolCall) => ...)]: every callback runs, also
    after one of them has failed. *)
Fixpoint callTools (reg : Registry) (threadId : string) (calls : list ToolCall)
    (w : World) : list (Completion ToolOutput) * World :=
  match calls with
  | [] => ([], w)
  | toolCall :: rest =>
      let '(r, w1) := callTool reg threadId toolCall w in
      let '(rs, w2) := callTools reg threadId rest w1 in
      (r :: rs, w2)
  end.

Definition submitToolOutputs (emit : Listener) (toolOutputs : list ToolOutput)
    (runId threadId : string) (p : Promise) (w : World) : option (Promise * World) :=
  let '(stream, api) :=
    submitToolOutputsStream (record_submission threadId runId toolOutputs (client w))
                            threadId runId toolOutputs in
  match emit_all emit (stream_events stream) p (set_client api w) with
  | Some (p1, w1) =>
      Some (p1, match stream_error stream with
                | Some _ => console_error "Error submitting tool outputs:" w1
                | None => w1
                end)
  | None => None
  end.

Definition handleRequiresAction (emit : Listener) (reg : Registry) (data : Run)
    (runId threadId : string) (p : Promise) (w : World) : option (Promise * World) :=
  let '(results, w1) := callTools reg threadId (tool_calls data) w in
  match Promise_all results with
  | Returned toolOutputs => submitToolOutputs emit toolOutputs runId threadId p w1
  | Thrown _ => Some (p, console_error "Error processing required action:" w1)
  end.

(** [onEvent]; the listener that [emit] reaches is [onEvent] itself, as
    [createMessage] installs it.  [fuel] bounds the depth of the rounds of
    tool use, which the program does not bound. *)
Fixpoint onEvent (fuel : nat) (reg : Registry) (event : AssistantStreamEvent)
    (p : Promise) (w : World) : option (Promise * World) :=
  match fuel with
  | O => None
  | S fuel' =>
      match event with
      | thread_run_requires_action data =>
          handleRequiresAction (onEvent fuel' reg) reg data
                               (run_id data) (thread_id data) p w
      | thread_run_completed data =>
          match messages_list (thread_id data) w with
          | Thrown _ => Some (p, console_error "Error handling event:" w)
          | Returned messages =>
              match answer_of messages with
              | Some (TextContentBlock value) => Some (resolve value p, w)
              | _ => Some (p, w)
              end
          end
      | thread_run_failed data => Some (resolve (failure_text data) p, w)
      | _ => Some (p, w)
      end
  end.

End EventHandler.

(** * index.ts *)

(** ** [createPrompt] and the timer map *)

(** [new CronJob(..., null, true, timeZone)]: the constructor of the [cron]
    package throws when the time zone is not one it accepts, and when the
    pattern is not one (a minute outside 0..59, an hour outside 0..23);
    otherwise it returns the timer, started.  Of the error for the pattern,
    whose text names the field, the model keeps that it is an [Error]. *)
Definition new_CronJob (known : string → bool) (job : Job) (tz : option string)
    : Completion CronJob :=
  if negb (zone_accepted known tz) then Thrown (Error "Invalid timezone.")
  else if negb (pattern_accepted job) then Thrown (Error "Field value is out of range")
  else Returned (running_timer job tz).

(** [if (cronJobs[id]) { cronJobs[id].stop() }] *)
Definition stop_registered (i : Z) (w : World) : World :=
  match cronJobs w !! i with
  | Some h => set_timers (cronJobs w) (alter stop h (timers w)) w
  | None => w
  end.

(** [createPrompt]: the old timer of the job id is stopped before the new
    one is built, so when the constructor throws, the call ends with its
    error, the old timer stopped and still in the timer map. *)
Definition createPrompt (job : option Job) (w : World) : Completion unit * World :=
  match job with
  | None => (Returned (), w)
  | Some job =>
      let w1 := stop_registered (job_id job) w in
      let timeZone := select_timezone (db w1) (job_tenant job) in
      match new_CronJob (zones w1) job timeZone with
      | Thrown e => (Thrown e, w1)
      | Returned cronJob =>
          (Returned (),
           set_timers (<[job_id job := length (timers w1)]> (cronJobs w1))
                      (timers w1 ++ [cronJob]) w1)
      end
  end.

(** A sequence of calls [createPrompt(job)], one after the other, each
    from a caller of its own: the process goes on after a call that threw. *)
Definition createPrompts (registrations : list Job) (w : World) : World :=
  foldl (λ w job, snd (createPrompt (Some job) w)) w registrations.

(** [for (const job of rows) createPrompt(job)]: the loop ends with the
    first call that throws. *)
Fixpoint createPrompt_each (rows : list Job) (w : World) : Completion unit * World :=
  match rows with
  | [] => (Returned (), w)
  | job :: rest =>
      match createPrompt (Some job) w with
      | (Thrown e, w1) => (Thrown e, w1)
      | (Returned _, w1) => createPrompt_each rest w1
      end
  end.

(** [for (const job of db.prepare(SELECT * FROM jobs).all()) createPrompt(job)],
    at the top of the module: an error of the loop ends the start of the
    process. *)
Definition startup (w : World) : Completion unit * World :=
  createPrompt_each (jobs (db w)) w.

(** ** The tool handlers

    Each handler is given with the argument type of its TypeScript
    signature (an optional field is an [option]). *)

(** [(await client.beta.threads.retrieve(threadId)).metadata.tenant] *)
Definition threads_retrieve (threadId : string) (w : World) : Completion string :=
  match api_threads (client w) !! threadId with
  | Some tenant => Returned tenant
  | None => Thrown (APIError "No thread found")
  end.

Definition model_infos : Handler :=
  λ _ _ w,
    (Returned (JObj [("author", JStr "Lukas Leisten / Jendrik Wendt");
                     ("version", JStr "0.0.1")]), w).

(** [{ ...a, ...b }] *)
Definition spread {A} (a b : list (string * A)) : list (string * A) :=
  foldl (λ o kv, assign (fst kv) (snd kv) o) a b.

(** [omit(response, key)] *)
Definition omit (response : list (string * json)) (key : string)
    : list (string * json) :=
  filter (λ kv, fst kv ≠ key) response.

(** [bing_web_search]; [ky_get] is the answer of the search service to
    [ky.get("v7.0/search", { headers, searchParams }).json()], a response
    object or a failed request.  The handler is registered with the parsed
    arguments as its first parameter, whatever they are: a string becomes
    the query, the own properties of anything else are spread over the
    default query (those of an array are its indices, which an object
    lists first). *)
Definition bing_web_search
    (ky_get : list (string * json) → Completion (list (string * json))) : Handler :=
  λ queryOrOpts _ w,
    let defaultQuery := [("mkt", JStr "de-DE")] in
    let searchParams :=
      match queryOrOpts with
      | JStr q => spread defaultQuery [("q", JStr q)]
      | JObj fields => spread defaultQuery fields
      | JArr items => imap (λ i x, (pretty i, x)) items ++ defaultQuery
      | _ => defaultQuery
      end in
    match ky_get searchParams with
    | Returned response => (Returned (JObj (omit response "rankingResponse")), w)
    | Thrown e => (Thrown e, w)
    end.

(** The schema [z.object({ q: z.string() })] of [bing_web_search]. *)
Definition bing_web_search_parameters : ZodObject :=
  [("q", mkZodField ZodString true)].

Record EditPromptArgs := mkEditPromptArgs {
  edit_prompt_prompt : option string;
  edit_prompt_hour : option Z;
  edit_prompt_minute : option Z;
  edit_prompt_id : Z
}.

Definition edit_prompt (args : EditPromptArgs) (threadId : string) (w : World)
    : Completion RunResult * World :=
  match threads_retrieve threadId w with
  | Thrown e => (Thrown e, w)
  | Returned tenant =>
      let '(result, d) :=
        update_jobs (edit_prompt_prompt args) (edit_prompt_hour args)
                    (edit_prompt_minute args) tenant (edit_prompt_id args) (db w) in
      let w1 := set_db d w in
      if bool_decide (0 < changes result)%nat
      then match createPrompt (select_job (db w1) (edit_prompt_id args)) w1 with
           | (Thrown e, w2) => (Thrown e, w2)
           | (Returned _, w2) => (Returned result, w2)
           end
      else (Returned result, w1)
  end.

Record DeletePromptArgs := mkDeletePromptArgs {
  delete_prompt_id : Z
}.

Definition delete_prompt (args : DeletePromptArgs) (threadId : string) (w : World)
    : Completion RunResult * World :=
  match threads_retrieve threadId w with
  | Thrown e => (Thrown e, w)
  | Returned tenant =>
      let '(result, d) := delete_jobs tenant (delete_prompt_id args) (db w) in
      let w1 := set_db d w in
      (Returned result,
       if bool_decide (0 < changes result)%nat
       then match cronJobs w1 !! delete_prompt_id args with
            | Some h =>
                set_timers (delete (delete_prompt_id args) (cronJobs w1))
                           (alter stop h (timers w1)) w1
            | None => w1
            end
       else w1)
  end.

(** [client.beta.assistants.update(id, { instructions })]: the stored
    assistant gets the new instructions and keeps everything else; an
    [undefined] value leaves the field alone, and so does an unknown id
    (the request fails, and the program does not await it). *)
Definition assistants_update (id : string) (instr : option string) (api : OpenAI)
    : OpenAI :=
  match api_assistants api !! id with
  | Some a =>
      let a' := mkAssistant (assistant_id a) (assistant_model a)
                            (COALESCE instr (instructions a)) (assistant_tools a) in
      mkOpenAI (api_threads api) (api_messages api)
               (<[id := a']> (api_assistants api)) (api_submitted api) (api_next api)
  | None => api
  end.

Record EditTenantArgs := mkEditTenantArgs {
  edit_tenant_system : option string;
  edit_tenant_timezone : option string
}.

Definition edit_tenant (args : EditTenantArgs) (threadId : string) (w : World)
    : Completion RunResult * World :=
  match threads_retrieve threadId w with
  | Thrown e => (Thrown e, w)
  | Returned tenant =>
      let '(result, d) :=
        update_tenants (edit_tenant_system args) (edit_tenant_timezone args)
                       tenant (db w) in
      let w1 := set_db d w in
      if bool_decide (0 < changes result)%nat
      then
        let system := select_system (db w1) tenant in
        match assistants w1 !! tenant with
        | Some a =>
            (Returned result,
             set_client (assistants_update (assistant_id a) system (client w1)) w1)
        | None =>
            (Thrown (TypeError "Cannot read properties of undefined (reading 'id')"), w1)
        end
      else (Returned result, w1)
  end.

(** ** The agent cache *)

Definition getAssistant (reg : Registry) (tenant : string) (w : World)
    : Completion Assistant * World :=
  match select_system (db w) tenant with
  | None | Some EmptyString => (Thrown (Error "Tenant not found"), w)
  | Some system =>
      match assistants w !! tenant with
      | Some a => (Returned a, w)
      | None =>
          let '(a, w1) := createAssistant reg "gpt-4o" system w in
          (Returned a, set_assistants (<[tenant := a]> (assistants w1)) w1)
      end
  end.

(** ** Threads and messages *)

(** [client.beta.threads.create({ metadata: { tenant } })]: a thread with a
    fresh id, the tenant in its metadata and no messages. *)
Definition createThread (tenant : string) (w : World) : string * World :=
  let api := client w in
  let id := "thread_" +:+ pretty (api_next api) in
  (id, set_client (mkOpenAI (<[id := tenant]> (api_threads api))
                            (<[id := []]> (api_messages api))
                            (api_assistants api) (api_submitted api)
                            (S (api_next api))) w).

Definition getThread (tenant : string) (w : World) : string * World :=
  match threads w !! tenant with
  | Some id => (id, w)
  | None =>
      let '(id, w1) := createThread tenant w in
      (id, set_threads (<[tenant := id]> (threads w1)) w1)
  end.

(** [client.beta.threads.messages.create(threadId, { role, content })];
    [None] when the service does not know the thread. *)
Definition messages_create (threadId : string) (m : Message) (api : OpenAI)
    : option OpenAI :=
  match api_messages api !! threadId with
  | Some ms =>
      Some (mkOpenAI (api_threads api) (<[threadId := m :: ms]> (api_messages api))
                     (api_assistants api) (api_submitted api) (api_next api))
  | None => None
  end.

Section Conversation.

Variable JSON_parse : string → option json.
Variable JSON_stringify : json → option string.
Variable submitToolOutputsStream :
  OpenAI → string → string → list ToolOutput → AssistantStream * OpenAI.

(** [client.beta.threads.runs.stream(threadId, { assistant_id })]: the
    stream of the run and the state of the service by the time the program
    reads it. *)
Variable runs_stream : OpenAI → string → string → AssistantStream * OpenAI.

(** [createMessage]: the promise it returns is settled by the events of the
    run alone, so the value of the call is that promise as the stream leaves
    it; a failure of the stream itself is lost with the executor. *)
Definition createMessage (fuel : nat) (reg : Registry)
    (tenant threadId content : string) (w : World)
    : option (Completion Promise * World) :=
  match getAssistant reg tenant w with
  | (Thrown e, w1) => Some (Thrown e, w1)
  | (Returned assistant, w1) =>
      match messages_create threadId (mkMessage "user" [TextContentBlock content])
                            (client w1) with
      | None => Some (Thrown (APIError "No thread found"), w1)
      | Some api =>
          let '(stream, api1) := runs_stream api threadId (assistant_id assistant) in
          match emit_all (onEvent JSON_parse JSON_stringify submitToolOutputsStream
                                  fuel reg)
                         (stream_events stream) None (set_client api1 w1) with
          | Some (p, w2) => Some (Returned p, w2)
          | None => None
          end
      end
  end.

End Conversation.

(** ** What the model observes of the timers *)

(** The timer behind handle [h] runs, and it is a timer of job id [i]. *)
Definition is_live (w : World) (i : Z) (h : nat) : bool :=
  match timers w !! h with
  | Some c => running c && bool_decide (job_id (onTick c) = i)
  | None => false
  end.

(** The handles of the timers that run for job id [i]. *)
Definition live_timers (w : World) (i : Z) : list nat :=
  filter (λ h, is_live w i h = true) (seq 0 (length (timers w))).


(** What every call of [createPrompt] keeps, whether it returns or throws:
    a timer that runs is the one that [cronJobs] holds for its job id, and
    what [cronJobs] holds for a job id is a timer of that job id. *)
Record timers_sound (w : World) : Prop := mk_timers_sound {
  sound_running_registered :
    ∀ h c, timers w !! h = Some c → running c = true →
           cronJobs w !! job_id (onTick c) = Some h;
  sound_registered_own :
    ∀ i h, cronJobs w !! i = Some h →
           ∃ c, timers w !! h = Some c ∧ job_id (onTick c) = i
}.

(** The discipline of the timer map: a timer that runs is the one that
    [cronJobs] holds for its job id, and what [cronJobs] holds for a job id
    is a running timer of that job id. *)
Record timers_ok (w : World) : Prop := mk_timers_ok {
  running_registered :
    ∀ h c, timers w !! h = Some c → running c = true →
           cronJobs w !! job_id (onTick c) = Some h;
  registered_running :
    ∀ i h, cronJobs w !! i = Some h →
           ∃ c, timers w !! h = Some c ∧ running c = true ∧ job_id (onTick c) = i
}.

(** Registrations that the constructor accepts, all of them. *)
Definition all_accepted (registrations : list Job) (w : World) : Prop :=
  ∀ j, j ∈ registrations →
       cron_accepts (zones w) j (select_timezone (db w) (job_tenant j)) = true.

(** The state the process starts from. *)
Definition initial_World (known : string → bool) (d : Database) (api : OpenAI) : World :=
  mkWorld d ∅ [] ∅ ∅ api [] known.

(** ** The other handlers of the store *)

(** [SELECT * FROM tenants WHERE number = ?], [.get(n)] *)
Definition select_tenant (d : Database) (n : string) : option Tenant :=
  head (filter (λ t, tenant_number t = n) (tenants d)).

Definition retrieve_tenant (threadId : string) (w : World)
    : Completion (option Tenant) * World :=
  match threads_retrieve threadId w with
  | Thrown e => (Thrown e, w)
  | Returned tenant => (Returned (select_tenant (db w) tenant), w)
  end.

(** A row of [SELECT id, prompt, hour, minute FROM jobs WHERE tenant = ?]. *)
Record PromptEntry := mkPromptEntry {
  entry_id : Z;
  entry_prompt : string;
  entry_hour : Z;
  entry_minute : Z
}.

Definition entry_of (j : Job) : PromptEntry :=
  mkPromptEntry (job_id j) (job_prompt j) (job_hour j) (job_minute j).

(** [SELECT id, prompt, hour, minute FROM jobs WHERE tenant = ?], [.all(t)] *)
Definition select_prompts (d : Database) (t : string) : list PromptEntry :=
  entry_of <$> filter (λ j, job_tenant j = t) (jobs d).

Definition retrieve_prompts (threadId : string) (w : World)
    : Completion (list PromptEntry) * World :=
  match threads_retrieve threadId w with
  | Thrown e => (Thrown e, w)
  | Returned tenant => (Returned (select_prompts (db w) tenant), w)
  end.

(** The search parameters [bing_web_search] sends. *)
Definition searchParams_of (queryOrOpts : json) : list (string * json) :=
  match queryOrOpts with
  | JStr q => spread [("mkt", JStr "de-DE")] [("q", JStr q)]
  | JObj fields => spread [("mkt", JStr "de-DE")] fields
  | JArr items => imap (λ i x, (pretty i, x)) items ++ [("mkt", JStr "de-DE")]
  | _ => [("mkt", JStr "de-DE")]
  end.

(** ** The store and the timers together

    The timer map as a projection of the [jobs] table: ids are unique, every
    stored job has its entry in [cronJobs], whose timer was built from the
    row as it is stored now, and every entry belongs to a stored job. *)
Record schedule_ok (w : World) : Prop := mk_schedule_ok {
  ids_unique : NoDup (job_id <$> jobs (db w));
  schedule_timers_ok : timers_ok w;
  stored_scheduled :
    ∀ j, j ∈ jobs (db w) →
         ∃ h tz, cronJobs w !! job_id j = Some h ∧
                 timers w !! h = Some (running_timer j tz);
  scheduled_stored :
    ∀ i h, cronJobs w !! i = Some h → ∃ j, j ∈ jobs (db w) ∧ job_id j = i
}.

(** The events [onEvent] has no branch for. *)
Definition unhandled (event : AssistantStreamEvent) : bool :=
  match event with
  | thread_run_requires_action _ | thread_run_completed _ | thread_run_failed _ => false
  | _ => true
  end.

(** * Sample states *)

(** The time zones of the samples. *)
Definition known_zones : string → bool :=
  λ z, bool_decide (z ∈ ["Europe/Berlin"; "Asia/Tokyo"; "UTC"]).

(** A store with one tenant, and a service that knows nothing yet. *)
Definition berlin : Tenant := mkTenant "4915112345" "Antworte kurz." "Europe/Berlin".


Definition fresh_service : OpenAI := mkOpenAI ∅ ∅ ∅ [] 0%nat.

Definition morning : Job := mkJob 7 "4915112345" 8 30 "Good morning".



(** A store with one scheduled prompt, a service with the chat thread of
    the tenant, and the process once it has started. *)
Definition one_job : Database := mkDatabase [berlin] [morning] 7.

Definition chat_service : OpenAI :=
  mkOpenAI {["thread_1" := "4915112345"]} {["thread_1" := []]} ∅ [] 0.

Definition started : World :=
  snd (startup (initial_World known_zones one_job chat_service)).

(** A store with the prompts of two tenants. *)
Definition hamburg : Tenant := mkTenant "4917000000" "Sei freundlich." "Europe/Berlin".

Definition noon : Job := mkJob 8 "4917000000" 12 0 "Mahlzeit".

Definition two_tenants : Database := mkDatabase [berlin; hamburg] [morning; noon] 8.

Definition shared : World :=
  snd (startup (initial_World known_zones two_tenants chat_service)).



(** What the samples ask of [Object.prototype]: [constructor] is [Object],
    which hands back the value it is given (a primitive in a wrapper that
    [JSON.stringify] takes off again) and makes an empty object of [null]
    and [undefined]; [toString] names the kind of the object.  The names of
    the tools of the samples are not inherited. *)
Definition Object_prototype : gmap string Handler → string → option Handler :=
  λ _ name,
    if decide (name = "constructor")
    then Some (λ args _ w,
                 (Returned (match args with
                            | JNull | JUndefined => JObj []
                            | _ => args
                            end), w))
    else if decide (name = "toString")
    then Some (λ _ _ w, (Returned (JStr "[object Object]"), w))
    else None.

(** The registry after the first registration of [index.ts], and the
    process once the agent of the tenant has been created. *)
Definition first_registration : Registry :=
  registerFunction "model_infos"
    "Retrieves general informations about this AI Model like Author, Version, etc."
    [] model_infos (no_functions Object_prototype).

Definition with_agent : World :=
  snd (getAssistant first_registration "4915112345" started).

(** The runtime of the samples: [JSON.parse] on the argument texts that
    occur in them, and [JSON.stringify] for values whose strings need no
    escaping. *)
Definition quote : string := String (Ascii.ascii_of_nat 34) EmptyString.

Definition weather_query : string :=
  "{" +:+ quote +:+ "q" +:+ quote +:+ ":" +:+ quote +:+ "Wetter Berlin" +:+ quote +:+ "}".

Definition parse_known (text : string) : option json :=
  if decide (text = "{}") then Some (JObj [])
  else if decide (text = "5") then Some (JNum 5)
  else if decide (text = weather_query) then Some (JObj [("q", JStr "Wetter Berlin")])
  else None.

Fixpoint json_text (v : json) : string :=
  match v with
  | JUndefined | JNull => "null"
  | JBool b => if b then "true" else "false"
  | JNum z => pretty z
  | JStr s => quote +:+ s +:+ quote
  | JArr items =>
      "[" +:+ String.concat "," (List.map json_text items) +:+ "]"
  | JObj fields =>
      "{" +:+ String.concat ","
                ((fix members (l : list (string * json)) : list string :=
                    match l with
                    | [] => []
                    | (_, JUndefined) :: l' => members l'
                    | (k, x) :: l' =>
                        (quote +:+ k +:+ quote +:+ ":" +:+ json_text x) :: members l'
                    end) fields) +:+ "}"
  end.

Definition stringify (v : json) : option string :=
  match v with
  | JUndefined => None
  | _ => Some (json_text v)
  end.

(** A service that, on a batch of tool outputs, finishes the run with an
    answer of the assistant, and a search service that is down. *)
Definition answering (text : string)
    : OpenAI → string → string → list ToolOutput → AssistantStream * OpenAI :=
  λ api threadId runId _,
    (mkAssistantStream [thread_run_completed (mkRun runId threadId [] None)] None,
     mkOpenAI (api_threads api)
              (<[threadId := [mkMessage "assistant" [TextContentBlock text]]]>
                 (api_messages api))
              (api_assistants api) (api_submitted api) (api_next api)).

Definition unreachable : list (string * json) → Completion (list (string * json)) :=
  λ _, Thrown (mkExn "HTTPError" "Request failed").

Definition two_tools : Registry :=
  registerFunction "bing_web_search"
    "Searches the web using the Bing search engine."
    bing_web_search_parameters (bing_web_search unreachable) first_registration.

(** A second handler for [model_infos]. *)
Definition model_infos_next : Handler :=
  λ _ _ w, (Returned (JObj [("version", JStr "0.0.2")]), w).

Definition registered_twice : list Registration :=
  [mkRegistration "model_infos" "Retrieves general informations." [] model_infos;
   mkRegistration "model_infos" "Retrieves general informations." [] model_infos_next].

(** A search service that answers, and the registry with it. *)
Definition found : list (string * json) → Completion (list (string * json)) :=
  λ _, Returned [("_type", JStr "SearchResponse"); ("rankingResponse", JObj [])].

Definition searching : Registry :=
  registerFunction "bing_web_search"
    "Searches the web using the Bing search engine."
    bing_web_search_parameters (bing_web_search found) first_registration.

(** Runs that ask for tools: two calls, of which the search fails when the
    search service is down, and a call of a tool that is not registered. *)
Definition two_calls : Run :=
  mkRun "run_1" "thread_1"
        [mkToolCall "call_1" "model_infos" "{}";
         mkToolCall "call_2" "bing_web_search" weather_query] None.

Definition unknown_call : Run :=
  mkRun "run_1" "thread_1" [mkToolCall "call_1" "get_current_weather" "{}"] None.

(** What is left of the outcome of an event for an observer: the caller's
    result, the batches the service has received, and the error log. *)
Definition observed (r : option (Promise * World))
    : option (Promise * list Submission * list string) :=
  (λ pw, (fst pw, api_submitted (client (snd pw)), stderr (snd pw))) <$> r.

(** The process while the tenant waits for an answer: the thread holds the
    message of the user and nothing of the assistant. *)
Definition asked_service : OpenAI :=
  mkOpenAI {["thread_1" := "4915112345"]}
           {["thread_1" := [mkMessage "user" [TextContentBlock "Hallo"]]]} ∅ [] 0%nat.

Definition asked : World :=
  snd (startup (initial_World known_zones one_job asked_service)).

Definition finished_run : Run := mkRun "run_1" "thread_1" [] None.

Definition cancelled_run : Run :=
  mkRun "run_1" "thread_1" [] (Some (mkLastError "server_error" "cancelled by the user")).

(** Runs as the service streams them: one that completes without a
    message of the assistant, and one that is cancelled. *)
Definition completes_silently : OpenAI → string → string → AssistantStream * OpenAI :=
  λ api threadId _,
    (mkAssistantStream [thread_run_created (mkRun "run_1" threadId [] None);
                        thread_run_in_progress (mkRun "run_1" threadId [] None);
                        thread_run_completed (mkRun "run_1" threadId [] None)] None,
     api).

Definition gets_cancelled : OpenAI → string → string → AssistantStream * OpenAI :=
  λ api threadId _,
    (mkAssistantStream [thread_run_created (mkRun "run_1" threadId [] None);
                        thread_run_cancelling (mkRun "run_1" threadId [] None);
                        thread_run_cancelled (mkRun "run_1" threadId [] None)] None,
     api).

(** The caller's result of a call of [createMessage]. *)
Definition answer (r : option (Completion Promise * World)) : option (Completion Promise) :=
  fst <$> r.

(** A run that answers without tools, as the service streams it, and the
    thread afterwards. *)
Definition answers_directly (text : string)
    : OpenAI → string → string → AssistantStream * OpenAI :=
  λ api threadId _,
    (mkAssistantStream [thread_run_created (mkRun "run_1" threadId [] None);
                        thread_run_in_progress (mkRun "run_1" threadId [] None);
                        thread_run_completed (mkRun "run_1" threadId [] None)] None,
     mkOpenAI (api_threads api)
              (alter (λ ms, mkMessage "assistant" [TextContentBlock text] :: ms)
                     threadId (api_messages api))
              (api_assistants api) (api_submitted api) (api_next api)).

(** The service once the message of the tenant is on the thread, and once
    the run has answered. *)
Definition asked_api : OpenAI :=
  default (client with_agent)
          (messages_create "thread_1" (mkMessage "user" [TextContentBlock "Hallo"])
                           (client with_agent)).

Definition answered_api : OpenAI :=
  snd (answers_directly "Hallo!" asked_api "thread_1" "asst_0").

(** * Properties *)

(** ** The timer map *)

Lemma initial_timers_ok (known : string → bool) (d : Database) (api : OpenAI) :
  timers_ok (initial_World known d api).
Proof.
  split; simpl.
  - intros h c Hh. by rewrite lookup_nil in Hh.
  - intros i h Hi. by rewrite lookup_empty in Hi.
Qed.

Lemma timers_ok_sound (w : World) : timers_ok w → timers_sound w.
Proof.
  intros [Hrun Hreg]. split; [done|].
  intros i h Hi. destruct (Hreg i h Hi) as (c & Hh & _ & Hid). eauto.
Qed.

Lemma initial_timers_sound (known : string → bool) (d : Database) (api : OpenAI) :
  timers_sound (initial_World known d api).
Proof. apply timers_ok_sound, initial_timers_ok. Qed.

Lemma new_CronJob_accepted (known : string → bool) (job : Job) (tz : option string) :
  cron_accepts known job tz = true →
  new_CronJob known job tz = Returned (running_timer job tz).
Proof.
  unfold cron_accepts, new_CronJob. intros [-> ->]%andb_true_iff. done.
Qed.

Lemma new_CronJob_rejected (known : string → bool) (job : Job) (tz : option string) :
  cron_accepts known job tz = false → ∃ e, new_CronJob known job tz = Thrown e.
Proof.
  unfold cron_accepts, new_CronJob. intros [-> | H]%andb_false_iff; simpl; [eauto|].
  rewrite H. destruct (zone_accepted known tz); simpl; eauto.
Qed.

(** What [cronJobs[id].stop()] leaves behind, field by field. *)
Lemma stop_registered_fields (i : Z) (w : World) :
  db (stop_registered i w) = db w ∧
  cronJobs (stop_registered i w) = cronJobs w ∧
  timers (stop_registered i w) =
    match cronJobs w !! i with
    | Some h => alter stop h (timers w)
    | None => timers w
    end ∧
  length (timers (stop_registered i w)) = length (timers w) ∧
  assistants (stop_registered i w) = assistants w ∧
  threads (stop_registered i w) = threads w ∧
  client (stop_registered i w) = client w ∧
  stderr (stop_registered i w) = stderr w ∧
  zones (stop_registered i w) = zones w.
Proof.
  unfold stop_registered. destruct (cronJobs w !! i) as [h|]; simpl;
    rewrite ?length_alter; done.
Qed.

(** A timer as [stop_registered] leaves it is the timer it was, stopped or
    not; one that still runs is not a timer of the job id. *)
Lemma stop_registered_old (i : Z) (w : World) (h : nat) (c : CronJob) :
  timers_sound w → timers (stop_registered i w) !! h = Some c →
  ∃ c0, timers w !! h = Some c0 ∧ onTick c = onTick c0 ∧
        (running c = true → c = c0 ∧ job_id (onTick c0) ≠ i).
Proof.
  intros Hok. destruct (stop_registered_fields i w) as (_ & _ & -> & _).
  destruct (cronJobs w !! i) as [h0|] eqn:Hi.
  - destruct (decide (h0 = h)) as [->|Hne].
    + rewrite list_lookup_alter_eq. destruct (timers w !! h) as [c0|]; [|done].
      intros [= <-]. exists c0. split; [done|]. split; [done|]. done.
    + rewrite list_lookup_alter_ne by done. intros Hh. exists c.
      split; [done|]. split; [done|]. intros Hr. split; [done|]. intros Hid.
      pose proof (sound_running_registered w Hok h c Hh Hr) as Hreg.
      rewrite Hid, Hi in Hreg. congruence.
  - intros Hh. exists c. split; [done|]. split; [done|].
    intros Hr. split; [done|]. intros Hid.
    pose proof (sound_running_registered w Hok h c Hh Hr) as Hreg.
    rewrite Hid, Hi in Hreg. done.
Qed.

(** The timers that the map holds for the other job ids are not touched. *)
Lemma stop_registered_other (i i' : Z) (w : World) (h : nat) :
  timers_sound w → i ≠ i' → cronJobs w !! i' = Some h →
  timers (stop_registered i w) !! h = timers w !! h.
Proof.
  intros Hok Hne Hi'. destruct (stop_registered_fields i w) as (_ & _ & -> & _).
  destruct (cronJobs w !! i) as [h0|] eqn:Hi; [|done].
  apply list_lookup_alter_ne. intros ->.
  destruct (sound_registered_own w Hok _ _ Hi) as (c & Hc & Hid).
  destruct (sound_registered_own w Hok _ _ Hi') as (c' & Hc' & Hid').
  congruence.
Qed.

(** What [createPrompt] never touches. *)
Lemma createPrompt_keeps (job : option Job) (w : World) :
  db (snd (createPrompt job w)) = db w ∧
  assistants (snd (createPrompt job w)) = assistants w ∧
  threads (snd (createPrompt job w)) = threads w ∧
  client (snd (createPrompt job w)) = client w ∧
  stderr (snd (createPrompt job w)) = stderr w ∧
  zones (snd (createPrompt job w)) = zones w.
Proof.
  destruct job as [job|]; [|done]. unfold createPrompt.
  destruct (stop_registered_fields (job_id job) w)
    as (Hd & _ & _ & _ & Ha & Hth & Hcl & Herr & Hz).
  destruct (new_CronJob _ job _); simpl; rewrite ?Hd, ?Ha, ?Hth, ?Hcl, ?Herr, ?Hz; done.
Qed.

Lemma createPrompt_db (job : option Job) (w : World) :
  db (snd (createPrompt job w)) = db w.
Proof. apply createPrompt_keeps. Qed.

(** A registration that the constructor accepts. *)
Lemma createPrompt_accepted (job : Job) (w : World) :
  cron_accepts (zones w) job (select_timezone (db w) (job_tenant job)) = true →
  fst (createPrompt (Some job) w) = Returned () ∧
  cronJobs (snd (createPrompt (Some job) w))
    = <[job_id job := length (timers w)]> (cronJobs w) ∧
  timers (snd (createPrompt (Some job) w))
    = timers (stop_registered (job_id job) w)
      ++ [running_timer job (select_timezone (db w) (job_tenant job))].
Proof.
  intros Hacc. unfold createPrompt.
  destruct (stop_registered_fields (job_id job) w) as (Hd & Hc & _ & Hl & _ & _ & _ & _ & Hz).
  rewrite Hd, Hz, (new_CronJob_accepted _ _ _ Hacc). simpl. by rewrite Hc, Hl.
Qed.

(** A registration that the constructor rejects. *)
Lemma createPrompt_rejected (job : Job) (w : World) :
  cron_accepts (zones w) job (select_timezone (db w) (job_tenant job)) = false →
  (∃ e, fst (createPrompt (Some job) w) = Thrown e) ∧
  snd (createPrompt (Some job) w) = stop_registered (job_id job) w.
Proof.
  intros Hrej. unfold createPrompt.
  destruct (stop_registered_fields (job_id job) w) as (Hd & _ & _ & _ & _ & _ & _ & _ & Hz).
  rewrite Hd, Hz. destruct (new_CronJob_rejected _ _ _ Hrej) as [e ->]. simpl. eauto.
Qed.

(** The timers that run after a call of [createPrompt] are the one it has
    started and those that ran before for the other job ids. *)
Lemma createPrompt_running (job : Job) (w : World) (h : nat) (c : CronJob) :
  timers_sound w →
  timers (snd (createPrompt (Some job) w)) !! h = Some c → running c = true →
  (cron_accepts (zones w) job (select_timezone (db w) (job_tenant job)) = true ∧
   h = length (timers w) ∧
   c = running_timer job (select_timezone (db w) (job_tenant job))) ∨
  (timers w !! h = Some c ∧ job_id (onTick c) ≠ job_id job).
Proof.
  intros Hok Hh Hr.
  destruct (stop_registered_fields (job_id job) w) as (_ & _ & _ & Hl & _).
  destruct (cron_accepts (zones w) job (select_timezone (db w) (job_tenant job)))
    eqn:Hacc.
  - destruct (createPrompt_accepted job w Hacc) as (_ & _ & Ht).
    rewrite Ht in Hh. apply lookup_snoc_Some in Hh as [[_ Hh]|[Hlen <-]].
    + right. destruct (stop_registered_old _ w h c Hok Hh) as (c0 & Hc0 & _ & Hsame).
      destruct (Hsame Hr) as [-> Hne]. done.
    + left. by rewrite <- Hl.
  - destruct (createPrompt_rejected job w Hacc) as [_ Hw]. rewrite Hw in Hh.
    right. destruct (stop_registered_old _ w h c Hok Hh) as (c0 & Hc0 & _ & Hsame).
    destruct (Hsame Hr) as [-> Hne]. done.
Qed.

(** Registering a job leaves the timers of the other job ids alone. *)
Lemma createPrompt_other (job : Job) (w : World) (i : Z) (h : nat) :
  timers_sound w → job_id job ≠ i → cronJobs w !! i = Some h →
  cronJobs (snd (createPrompt (Some job) w)) !! i = Some h ∧
  timers (snd (createPrompt (Some job) w)) !! h = timers w !! h.
Proof.
  intros Hok Hne Hi.
  pose proof (stop_registered_other _ _ w h Hok Hne Hi) as Hsame.
  destruct (stop_registered_fields (job_id job) w) as (_ & Hc0 & _ & Hl & _).
  destruct (cron_accepts (zones w) job (select_timezone (db w) (job_tenant job)))
    eqn:Hacc.
  - destruct (createPrompt_accepted job w Hacc) as (_ & Hc & Ht).
    rewrite Hc, Ht, lookup_insert_ne by done. split; [done|].
    rewrite lookup_app_l; [done|].
    destruct (sound_registered_own w Hok i h Hi) as (c & Hh & _).
    apply lookup_lt_Some in Hh. lia.
  - destruct (createPrompt_rejected job w Hacc) as [_ Hw].
    rewrite Hw, Hc0. done.
Qed.

Lemma createPrompt_cronJobs_other (job : Job) (w : World) (i : Z) :
  job_id job ≠ i →
  cronJobs (snd (createPrompt (Some job) w)) !! i = cronJobs w !! i.
Proof.
  intros Hne. destruct (stop_registered_fields (job_id job) w) as (_ & Hc0 & _).
  destruct (cron_accepts (zones w) job (select_timezone (db w) (job_tenant job)))
    eqn:Hacc.
  - destruct (createPrompt_accepted job w Hacc) as (_ & Hc & _).
    by rewrite Hc, lookup_insert_ne.
  - destruct (createPrompt_rejected job w Hacc) as [_ Hw]. by rewrite Hw, Hc0.
Qed.

Lemma createPrompt_sound (job : option Job) (w : World) :
  timers_sound w → timers_sound (snd (createPrompt job w)).
Proof.
  intros Hok. destruct job as [job|]; [|done]. split.
  - intros h c Hh Hr.
    destruct (createPrompt_running job w h c Hok Hh Hr) as [(Hacc & -> & ->)|[Hw Hne]].
    + destruct (createPrompt_accepted job w Hacc) as (_ & Hc & _).
      rewrite Hc. simpl. apply lookup_insert_eq.
    + pose proof (sound_running_registered w Hok h c Hw Hr) as Hreg.
      assert (Hne' : job_id job ≠ job_id (onTick c)) by (intros Heq; by apply Hne).
      by destruct (createPrompt_other job w _ h Hok Hne' Hreg) as [Hc _].
  - intros i h Hi. destruct (decide (job_id job = i)) as [<-|Hne].
    + destruct (stop_registered_fields (job_id job) w) as (_ & Hc0 & Ht0 & Hl & _).
      destruct (cron_accepts (zones w) job (select_timezone (db w) (job_tenant job)))
        eqn:Hacc.
      * destruct (createPrompt_accepted job w Hacc) as (_ & Hc & Ht).
        rewrite Hc, lookup_insert_eq in Hi. injection Hi as <-.
        eexists. rewrite Ht. split; [by apply list_lookup_middle | done].
      * destruct (createPrompt_rejected job w Hacc) as [_ Hw].
        rewrite Hw, Hc0 in Hi. rewrite Hw, Ht0, Hi.
        destruct (sound_registered_own w Hok _ h Hi) as (c & Hh & Hid).
        exists (stop c). by rewrite list_lookup_alter_eq, Hh.
    + assert (Hw : cronJobs w !! i = Some h).
      { destruct (stop_registered_fields (job_id job) w) as (_ & Hc0 & _).
        destruct (cron_accepts (zones w) job (select_timezone (db w) (job_tenant job)))
          eqn:Hacc.
        - destruct (createPrompt_accepted job w Hacc) as (_ & Hc & _).
          by rewrite Hc, lookup_insert_ne in Hi.
        - destruct (createPrompt_rejected job w Hacc) as [_ Hw].
          by rewrite Hw, Hc0 in Hi. }
      destruct (createPrompt_other job w i h Hok Hne Hw) as [_ Ht].
      rewrite Ht. by apply (sound_registered_own w Hok).
Qed.

(** A registration that the constructor accepts keeps the discipline of
    the timer map. *)
Lemma createPrompt_timers_ok (job : Job) (w : World) :
  timers_ok w →
  cron_accepts (zones w) job (select_timezone (db w) (job_tenant job)) = true →
  timers_ok (snd (createPrompt (Some job) w)).
Proof.
  intros Hok Hacc. pose proof (timers_ok_sound w Hok) as Hs.
  destruct (createPrompt_sound (Some job) w Hs) as [Hrun _]. split; [done|].
  destruct (createPrompt_accepted job w Hacc) as (_ & Hc & Ht).
  destruct (stop_registered_fields (job_id job) w) as (_ & _ & _ & Hl & _).
  intros i h Hi. destruct (decide (job_id job = i)) as [<-|Hne].
  - rewrite Hc, lookup_insert_eq in Hi. injection Hi as <-.
    eexists. rewrite Ht. split; [by apply list_lookup_middle | done].
  - rewrite Hc, lookup_insert_ne in Hi by done.
    destruct (createPrompt_other job w i h Hs Hne Hi) as [_ Hsame].
    rewrite Hsame. by apply (registered_running w Hok).
Qed.

Lemma filter_only {A} (P : A → Prop) {Pdec : ∀ x, Decision (P x)} (l : list A) (a : A) :
  NoDup l → a ∈ l → P a → (∀ x, x ∈ l → P x → x = a) → filter P l = [a].
Proof.
  induction l as [|x l IH]; intros Hnd Hin Ha Huniq.
  - by apply elem_of_nil in Hin.
  - apply NoDup_cons in Hnd as [Hx Hnd].
    assert (Hrest : ∀ y, y ∈ l → P y → y = a).
    { intros y Hy. apply Huniq. by right. }
    apply elem_of_cons in Hin as [<-|Hin].
    + rewrite filter_cons_True by done. f_equal.
      apply elem_of_nil_inv. intros y [Hy Hyl]%list_elem_of_filter.
      apply Hx. by rewrite <- (Hrest y Hyl Hy).
    + rewrite filter_cons_False; [by apply IH|].
      intros Hpx. apply Hx. rewrite (Huniq x); [done| by left | done].
Qed.

Lemma is_live_true (w : World) (i : Z) (h : nat) :
  is_live w i h = true ↔
  ∃ c, timers w !! h = Some c ∧ running c = true ∧ job_id (onTick c) = i.
Proof.
  unfold is_live. destruct (timers w !! h) as [c|].
  - rewrite andb_true_iff, bool_decide_eq_true. split.
    + intros [Hr Hid]. by exists c.
    + intros (c' & [= <-] & Hr & Hid). done.
  - split; [done|]. by intros (c & Hc & _).
Qed.

(** The running timers of a job id, read off the map. *)
Lemma live_timers_running (w : World) (i : Z) (h : nat) (c : CronJob) :
  timers_sound w → cronJobs w !! i = Some h →
  timers w !! h = Some c → running c = true → live_timers w i = [h].
Proof.
  intros Hok Hi Hh Hr. unfold live_timers.
  destruct (sound_registered_own w Hok i h Hi) as (c' & Hh' & Hid).
  assert (c' = c) as -> by congruence.
  apply filter_only.
  - apply NoDup_seq.
  - apply elem_of_seq. apply lookup_lt_Some in Hh. lia.
  - apply is_live_true. eauto.
  - intros x _ (cx & Hx & Hrx & Hidx)%is_live_true.
    pose proof (sound_running_registered w Hok x cx Hx Hrx) as Hreg.
    rewrite Hidx, Hi in Hreg. congruence.
Qed.

Lemma live_timers_none (w : World) (i : Z) :
  (∀ h c, timers w !! h = Some c → job_id (onTick c) = i → running c = false) →
  live_timers w i = [].
Proof.
  intros Hquiet. unfold live_timers. apply elem_of_nil_inv.
  intros x [(c & Hx & Hr & Hid)%is_live_true _]%list_elem_of_filter.
  rewrite (Hquiet x c Hx Hid) in Hr. done.
Qed.

Lemma live_timers_registered (w : World) (i : Z) (h : nat) :
  timers_ok w → cronJobs w !! i = Some h → live_timers w i = [h].
Proof.
  intros Hok Hi.
  destruct (registered_running w Hok i h Hi) as (c & Hh & Hr & Hid).
  by apply (live_timers_running w i h c); [apply timers_ok_sound|..].
Qed.

Lemma live_timers_missing (w : World) (i : Z) :
  timers_sound w → cronJobs w !! i = None → live_timers w i = [].
Proof.
  intros Hok Hi. apply live_timers_none. intros h c Hh Hid.
  destruct (running c) eqn:Hr; [|done].
  pose proof (sound_running_registered w Hok h c Hh Hr) as Hreg.
  rewrite Hid, Hi in Hreg. done.
Qed.

Lemma live_timers_unregistered (w : World) (i : Z) :
  timers_ok w → cronJobs w !! i = None → live_timers w i = [].
Proof. intros Hok. by apply live_timers_missing, timers_ok_sound. Qed.


Lemma createPrompts_snoc (registrations : list Job) (job : Job) (w : World) :
  createPrompts (registrations ++ [job]) w =
  snd (createPrompt (Some job) (createPrompts registrations w)).
Proof. unfold createPrompts. by rewrite foldl_snoc. Qed.

Lemma createPrompts_db (registrations : list Job) (w : World) :
  db (createPrompts registrations w) = db w.
Proof.
  induction registrations as [|job js IH] using rev_ind; [done|].
  by rewrite createPrompts_snoc, createPrompt_db.
Qed.

Lemma createPrompts_zones (registrations : list Job) (w : World) :
  zones (createPrompts registrations w) = zones w.
Proof.
  induction registrations as [|job js IH] using rev_ind; [done|].
  rewrite createPrompts_snoc.
  destruct (createPrompt_keeps (Some job) (createPrompts js w)) as (_ & _ & _ & _ & _ & ->).
  done.
Qed.

Lemma createPrompts_sound (registrations : list Job) (w : World) :
  timers_sound w → timers_sound (createPrompts registrations w).
Proof.
  intros Hok. induction registrations as [|job js IH] using rev_ind; [done|].
  rewrite createPrompts_snoc. by apply createPrompt_sound.
Qed.

Lemma createPrompts_timers_ok (registrations : list Job) (w : World) :
  all_accepted registrations w → timers_ok w →
  timers_ok (createPrompts registrations w).
Proof.
  intros Hacc Hok. induction registrations as [|job js IH] using rev_ind; [done|].
  rewrite createPrompts_snoc. apply createPrompt_timers_ok.
  - apply IH. intros j Hj. apply Hacc. apply elem_of_app. by left.
  - rewrite createPrompts_zones, createPrompts_db. apply Hacc.
    apply elem_of_app. right. by left.
Qed.

(** When the constructor accepts every row, the loop of the start runs
    through, and it is the sequence of the registrations. *)
Lemma createPrompt_each_accepted (rows : list Job) (w : World) :
  all_accepted rows w →
  createPrompt_each rows w = (Returned (), createPrompts rows w).
Proof.
  revert w. induction rows as [|job rest IH]; intros w Hacc; [done|].
  destruct (createPrompt_accepted job w) as (Hret & _).
  { apply Hacc. by left. }
  pose proof (createPrompt_keeps (Some job) w) as (Hd & _ & _ & _ & _ & Hz).
  cbn [createPrompt_each]. unfold createPrompts. cbn [foldl].
  destruct (createPrompt (Some job) w) as [r w1]. cbn [fst snd] in *. subst r.
  apply IH. intros j Hj. rewrite Hd, Hz. apply Hacc. by right.
Qed.

(** After a sequence of registrations, the map holds for a job id the
    timer that the last registration of that id built, when the constructor
    accepted it. *)
Lemma createPrompts_last (registrations : list Job) (w : World) (i : Z) (job : Job) :
  timers_sound w →
  last (filter (λ k, job_id k = i) registrations) = Some job →
  cron_accepts (zones w) job (select_timezone (db w) (job_tenant job)) = true →
  ∃ h, cronJobs (createPrompts registrations w) !! i = Some h ∧
       timers (createPrompts registrations w) !! h =
         Some (running_timer job (select_timezone (db w) (job_tenant job))).
Proof.
  intros Hok Hlast Hacc. revert Hlast.
  induction registrations as [|k js IH] using rev_ind; [done|].
  rewrite filter_app, createPrompts_snoc, filter_cons, filter_nil.
  pose proof (createPrompts_sound js w Hok) as Hok'.
  destruct (decide (job_id k = i)) as [Hk|Hk].
  - rewrite last_snoc. intros [= ->]. subst i.
    destruct (createPrompt_accepted job (createPrompts js w)) as (_ & Hc & Ht).
    { by rewrite createPrompts_zones, createPrompts_db. }
    destruct (stop_registered_fields (job_id job) (createPrompts js w))
      as (_ & _ & _ & Hl & _).
    exists (length (timers (createPrompts js w))).
    rewrite Hc, Ht, lookup_insert_eq, createPrompts_db. split; [done|].
    by apply list_lookup_middle.
  - rewrite app_nil_r. intros Hlast.
    destruct (IH Hlast) as (h & Hc & Ht).
    destruct (createPrompt_other k _ i h Hok' Hk Hc) as [Hc' Ht'].
    exists h. by rewrite Hc', Ht'.
Qed.





(** C8, as the code has it. When the time zone of the tenant of a job
    cannot be read from the store, [createPrompt] does not fail for that:
    given a minute in 0..59 and an hour in 0..23, it returns, and it has
    built and started the timer with an undefined time zone and put it into
    the timer map, as for any other job; nothing is logged. *)
Theorem createPrompt_without_timezone (w : World) (job : Job) :
  select_timezone (db w) (job_tenant job) = None →
  pattern_accepted job = true →
  fst (createPrompt (Some job) w) = Returned () ∧
  ∃ h,
    cronJobs (snd (createPrompt (Some job) w)) !! job_id job = Some h ∧
    timers (snd (createPrompt (Some job) w)) !! h =
      Some (mkCronJob (job_minute job) (job_hour job) job None true) ∧
    is_live (snd (createPrompt (Some job) w)) (job_id job) h = true ∧
    stderr (snd (createPrompt (Some job) w)) = stderr w.
Proof.
  intros Htz Hpat.
  destruct (createPrompt_accepted job w) as (Hret & Hc & Ht).
  { unfold cron_accepts. by rewrite Htz, Hpat. }
  destruct (stop_registered_fields (job_id job) w) as (_ & _ & _ & Hl & _).
  rewrite Htz in Ht. split; [done|]. exists (length (timers w)).
  assert (Hnew : timers (snd (createPrompt (Some job) w)) !! length (timers w)
                 = Some (mkCronJob (job_minute job) (job_hour job) job None true)).
  { rewrite Ht. by apply list_lookup_middle. }
  split; [by rewrite Hc, lookup_insert_eq|]. split; [done|]. split.
  - apply is_live_true. eexists. split; [exact Hnew|]. done.
  - apply (createPrompt_keeps (Some job) w).
Qed.

Lemma createPrompt_without_timezone_witness :
  select_timezone (db (initial_World known_zones (mkDatabase [] [] 0) fresh_service))
                  (job_tenant morning) = None ∧
  pattern_accepted morning = true ∧
  fst (createPrompt (Some morning)
         (initial_World known_zones (mkDatabase [] [] 0) fresh_service)) = Returned () ∧
  ∃ h,
    cronJobs (snd (createPrompt (Some morning)
                     (initial_World known_zones (mkDatabase [] [] 0) fresh_service)))
      !! 7 = Some h ∧
    timers (snd (createPrompt (Some morning)
                   (initial_World known_zones (mkDatabase [] [] 0) fresh_service))) !! h =
      Some (mkCronJob 30 8 morning None true) ∧
    is_live (snd (createPrompt (Some morning)
                    (initial_World known_zones (mkDatabase [] [] 0) fresh_service)))
            7 h = true ∧
    stderr (snd (createPrompt (Some morning)
                   (initial_World known_zones (mkDatabase [] [] 0) fresh_service))) = [].
Proof.
  split; [reflexivity|]. split; [reflexivity|].
  apply (createPrompt_without_timezone
           (initial_World known_zones (mkDatabase [] [] 0) fresh_service) morning);
    reflexivity.
Defined.

(** The registration of a job of a tenant the store does not know: no
    error, and a timer that runs. *)
Lemma createPrompt_unknown_tenant_counterexample :
  select_timezone (mkDatabase [] [] 0) (job_tenant morning) = None ∧
  fst (createPrompt (Some morning)
         (initial_World known_zones (mkDatabase [] [] 0) fresh_service)) = Returned () ∧
  live_timers (snd (createPrompt (Some morning)
                      (initial_World known_zones (mkDatabase [] [] 0) fresh_service)))
              7 = [0%nat] ∧
  timers (snd (createPrompt (Some morning)
                 (initial_World known_zones (mkDatabase [] [] 0) fresh_service))) =
    [mkCronJob 30 8 morning None true].
Proof. vm_compute. done. Qed.

(** ** Deleting a job *)


Lemma filter_nothing {A} (P : A → Prop) {Pdec : ∀ x, Decision (P x)} (l : list A) :
  (∀ x, x ∈ l → ¬ P x) → filter P l = [].
Proof.
  intros Hnone. apply elem_of_nil_inv. intros x Hx.
  apply list_elem_of_filter in Hx as [Hp Hx]. by apply (Hnone x).
Qed.

Lemma filter_some {A} (P : A → Prop) {Pdec : ∀ x, Decision (P x)} (l : list A) (x : A) :
  x ∈ l → P x → (0 < length (filter P l))%nat.
Proof.
  intros Hx Hp. assert (Hin : x ∈ filter P l) by (by apply list_elem_of_filter).
  destruct (filter P l); [by apply elem_of_nil in Hin | simpl; lia].
Qed.

(** What [delete_prompt] returns and leaves behind, once the thread has
    been retrieved. *)
Lemma delete_prompt_fields (args : DeletePromptArgs) (threadId tenant : string) (w : World) :
  threads_retrieve threadId w = Returned tenant →
  let i := delete_prompt_id args in
  let n := length (filter (owned_by tenant i) (jobs (db w))) in
  let w' := snd (delete_prompt args threadId w) in
  fst (delete_prompt args threadId w) = Returned (mkRunResult n (lastInsertRowid (db w))) ∧
  db w' = mkDatabase (tenants (db w))
            (filter (λ j, ¬ owned_by tenant i j) (jobs (db w))) (lastInsertRowid (db w)) ∧
  cronJobs w' = (if bool_decide (0 < n)%nat then delete i (cronJobs w) else cronJobs w) ∧
  timers w' = (if bool_decide (0 < n)%nat
               then match cronJobs w !! i with
                    | Some h => alter stop h (timers w)
                    | None => timers w
                    end
               else timers w) ∧
  assistants w' = assistants w ∧ threads w' = threads w ∧
  client w' = client w ∧ stderr w' = stderr w ∧ zones w' = zones w.
Proof.
  intros Hthread. unfold delete_prompt. rewrite Hthread. simpl.
  case_bool_decide; [|done].
  destruct (cronJobs w !! delete_prompt_id args) as [h|] eqn:Hi; simpl; [done|].
  by rewrite delete_id.
Qed.



Lemma timers_ok_same (w w' : World) :
  cronJobs w' = cronJobs w → timers w' = timers w → timers_ok w → timers_ok w'.
Proof.
  intros Hc Ht [Hrun Hreg]. split.
  - intros h c. rewrite Hc, Ht. apply Hrun.
  - intros i h. rewrite Hc, Ht. apply Hreg.
Qed.

Lemma edit_tenant_timers_ok (args : EditTenantArgs) (threadId : string) (w : World) :
  timers_ok w → timers_ok (snd (edit_tenant args threadId w)).
Proof.
  intros Hok. unfold edit_tenant.
  destruct (threads_retrieve threadId w) as [tenant|e]; [|done]. simpl.
  case_bool_decide; [|by apply (timers_ok_same w)].
  destruct (assistants _ !! tenant); by apply (timers_ok_same w).
Qed.



(** The start of the process, when the constructor accepts every stored
    job: the loop runs through. *)
Lemma startup_accepted (known : string → bool) (d : Database) (api : OpenAI) :
  all_accepted (jobs d) (initial_World known d api) →
  startup (initial_World known d api)
    = (Returned (), createPrompts (jobs d) (initial_World known d api)).
Proof. intros Hacc. unfold startup. by apply createPrompt_each_accepted. Qed.

Lemma startup_timers_ok (known : string → bool) (d : Database) (api : OpenAI) :
  all_accepted (jobs d) (initial_World known d api) →
  timers_ok (snd (startup (initial_World known d api))).
Proof.
  intros Hacc. rewrite startup_accepted by done.
  by apply createPrompts_timers_ok; [|apply initial_timers_ok].
Qed.




(** ** The tenant scope of the mutations *)



(** The state [edit_prompt] leaves, and how it ends, once the thread has
    been retrieved: after the update, the row is registered again when the
    statement changed one, and an error of the registration is the error of
    the handler. *)
Lemma edit_prompt_state (args : EditPromptArgs) (threadId tenant : string) (w : World) :
  threads_retrieve threadId w = Returned tenant →
  snd (edit_prompt args threadId w) =
    if bool_decide
         (0 < changes (fst (update_jobs (edit_prompt_prompt args) (edit_prompt_hour args)
                              (edit_prompt_minute args) tenant (edit_prompt_id args)
                              (db w))))%nat
    then snd (createPrompt
                (select_job (snd (update_jobs (edit_prompt_prompt args)
                                    (edit_prompt_hour args) (edit_prompt_minute args)
                                    tenant (edit_prompt_id args) (db w)))
                            (edit_prompt_id args))
                (set_db (snd (update_jobs (edit_prompt_prompt args)
                                (edit_prompt_hour args) (edit_prompt_minute args)
                                tenant (edit_prompt_id args) (db w))) w))
    else set_db (snd (update_jobs (edit_prompt_prompt args) (edit_prompt_hour args)
                        (edit_prompt_minute args) tenant (edit_prompt_id args) (db w))) w.
Proof.
  intros Hthread. unfold edit_prompt. rewrite Hthread.
  cbn [update_jobs fst snd changes db set_db].
  case_bool_decide; [|done].
  by destruct (createPrompt _ _) as [[[]|e] w2].
Qed.

Lemma edit_prompt_result (args : EditPromptArgs) (threadId tenant : string) (w : World) :
  threads_retrieve threadId w = Returned tenant →
  fst (edit_prompt args threadId w) =
    if bool_decide
         (0 < changes (fst (update_jobs (edit_prompt_prompt args) (edit_prompt_hour args)
                              (edit_prompt_minute args) tenant (edit_prompt_id args)
                              (db w))))%nat
    then match fst (createPrompt
                      (select_job (snd (update_jobs (edit_prompt_prompt args)
                                          (edit_prompt_hour args) (edit_prompt_minute args)
                                          tenant (edit_prompt_id args) (db w)))
                                  (edit_prompt_id args))
                      (set_db (snd (update_jobs (edit_prompt_prompt args)
                                      (edit_prompt_hour args) (edit_prompt_minute args)
                                      tenant (edit_prompt_id args) (db w))) w)) with
         | Thrown e => Thrown e
         | Returned _ =>
             Returned (fst (update_jobs (edit_prompt_prompt args) (edit_prompt_hour args)
                              (edit_prompt_minute args) tenant (edit_prompt_id args)
                              (db w)))
         end
    else Returned (fst (update_jobs (edit_prompt_prompt args) (edit_prompt_hour args)
                          (edit_prompt_minute args) tenant (edit_prompt_id args) (db w))).
Proof.
  intros Hthread. unfold edit_prompt. rewrite Hthread.
  cbn [update_jobs fst snd changes db set_db].
  case_bool_decide; [|done].
  by destruct (createPrompt _ _) as [[[]|e] w2].
Qed.




(** ** Editing a tenant *)

Lemma update_tenants_system (s z : option string) (n : string) (d : Database) :
  select_system (snd (update_tenants s z n d)) n =
  (λ old, COALESCE s old) <$> select_system d n.
Proof.
  unfold select_system, update_tenants. simpl.
  induction (tenants d) as [|t l IH]; [done|].
  rewrite fmap_cons, !filter_cons.
  destruct (decide (tenant_number t = n)) as [Ht|Ht].
  - simpl. by rewrite decide_True by done.
  - by rewrite decide_False by done.
Qed.

Lemma update_tenants_changes (s z : option string) (n : string) (d : Database) :
  is_Some (select_system d n) →
  (0 < changes (fst (update_tenants s z n d)))%nat.
Proof.
  unfold select_system, update_tenants. simpl. intros [x Hx].
  destruct (filter (λ t, tenant_number t = n) (tenants d)); [done | simpl; lia].
Qed.

(** C9. [edit_tenant] on a tenant that has a row and a cached agent: the
    instructions the store holds after the update are sent to the service
    for the id of the cached agent, which changes the instructions of the
    stored assistant and nothing else of it (its tools stay); the agent
    cache itself is left as it is, so the tenant keeps the same agent. *)
Theorem edit_tenant_updates_in_place
    (args : EditTenantArgs) (threadId tenant old : string) (w : World)
    (a stored : Assistant) :
  threads_retrieve threadId w = Returned tenant →
  select_system (db w) tenant = Some old →
  assistants w !! tenant = Some a →
  api_assistants (client w) !! assistant_id a = Some stored →
  (∃ r, fst (edit_tenant args threadId w) = Returned r ∧ (0 < changes r)%nat) ∧
  select_system (db (snd (edit_tenant args threadId w))) tenant =
    Some (COALESCE (edit_tenant_system args) old) ∧
  assistants (snd (edit_tenant args threadId w)) = assistants w ∧
  api_assistants (client (snd (edit_tenant args threadId w))) =
    <[assistant_id a :=
        mkAssistant (assistant_id stored) (assistant_model stored)
                    (COALESCE (edit_tenant_system args) old) (assistant_tools stored)]>
      (api_assistants (client w)).
Proof.
  intros Hthread Hold Ha Hstored.
  pose proof (update_tenants_system (edit_tenant_system args)
                (edit_tenant_timezone args) tenant (db w)) as Hsys.
  pose proof (update_tenants_changes (edit_tenant_system args)
                (edit_tenant_timezone args) tenant (db w)) as Hpos.
  rewrite Hold in Hsys, Hpos. specialize (Hpos (mk_is_Some _ _ eq_refl)).
  unfold edit_tenant. rewrite Hthread.
  destruct (update_tenants _ _ tenant (db w)) as [result d] eqn:Hupd.
  simpl in Hsys, Hpos. simpl.
  rewrite bool_decide_eq_true_2, Ha by done. simpl.
  split; [eauto|]. split; [done|]. split; [done|].
  unfold assistants_update. simpl. by rewrite Hstored, Hsys.
Qed.

Lemma edit_tenant_updates_in_place_witness :
  threads_retrieve "thread_1" with_agent = Returned "4915112345" ∧
  select_system (db with_agent) "4915112345" = Some "Antworte kurz." ∧
  assistants with_agent !! "4915112345"
    = Some (mkAssistant "asst_0" "gpt-4o" "Antworte kurz."
              (snd <$> tools first_registration)) ∧
  api_assistants (client with_agent) !! "asst_0"
    = Some (mkAssistant "asst_0" "gpt-4o" "Antworte kurz."
              (snd <$> tools first_registration)) ∧
  (∃ r, fst (edit_tenant (mkEditTenantArgs (Some "Antworte lang.") None)
               "thread_1" with_agent) = Returned r ∧ (0 < changes r)%nat) ∧
  select_system (db (snd (edit_tenant (mkEditTenantArgs (Some "Antworte lang.") None)
                            "thread_1" with_agent))) "4915112345" =
    Some "Antworte lang." ∧
  assistants (snd (edit_tenant (mkEditTenantArgs (Some "Antworte lang.") None)
                     "thread_1" with_agent)) = assistants with_agent ∧
  api_assistants (client (snd (edit_tenant (mkEditTenantArgs (Some "Antworte lang.") None)
                                 "thread_1" with_agent))) =
    <["asst_0" := mkAssistant "asst_0" "gpt-4o" "Antworte lang."
                    (snd <$> tools first_registration)]>
      (api_assistants (client with_agent)).
Proof.
  do 4 (split; [reflexivity|]).
  exact (edit_tenant_updates_in_place (mkEditTenantArgs (Some "Antworte lang.") None)
           "thread_1" "4915112345" "Antworte kurz." with_agent
           (mkAssistant "asst_0" "gpt-4o" "Antworte kurz."
              (snd <$> tools first_registration))
           (mkAssistant "asst_0" "gpt-4o" "Antworte kurz."
              (snd <$> tools first_registration))
           eq_refl eq_refl eq_refl eq_refl).
Defined.

(** ** The function registry *)

Section Dispatch.

Variable JSON_parse : string → option json.
Variable JSON_stringify : json → option string.

Lemma function_named_own (reg : Registry) (name : string) (fn : Handler) :
  functions reg !! name = Some fn → function_named reg name = Some fn.
Proof. intros Hfn. unfold function_named. by rewrite Hfn. Qed.

Lemma function_named_inherited (reg : Registry) (name : string) :
  functions reg !! name = None →
  function_named reg name = inherited reg (functions reg) name.
Proof. intros Hfn. unfold function_named. by rewrite Hfn. Qed.

(** A call by a name that reads as a function calls it on the parsed
    arguments and the thread id; the output is the text of what it returns,
    under the id of the call, and an error of the function is the error of
    the call. *)
Lemma callTool_calls (reg : Registry) (fn : Handler) (args : json)
    (threadId : string) (toolCall : ToolCall) (w : World) :
  JSON_parse (function_arguments toolCall) = Some args →
  function_named reg (function_name toolCall) = Some fn →
  callTool JSON_parse JSON_stringify reg threadId toolCall w =
  (match fst (fn args threadId w) with
   | Returned v => Returned (mkToolOutput (call_id toolCall) (JSON_stringify v))
   | Thrown e => Thrown e
   end, snd (fn args threadId w)).
Proof.
  intros Hargs Hfn. unfold callTool, invoke. rewrite Hargs, Hfn.
  by destruct (fn args threadId w) as [[v|e] w1].
Qed.

Lemma callTool_unregistered (reg : Registry) (args : json)
    (threadId : string) (toolCall : ToolCall) (w : World) :
  JSON_parse (function_arguments toolCall) = Some args →
  function_named reg (function_name toolCall) = None →
  callTool JSON_parse JSON_stringify reg threadId toolCall w =
  (Thrown (TypeError "functions[toolCall.function.name] is not a function"), w).
Proof. intros Hargs Hfn. unfold callTool. by rewrite Hargs, Hfn. Qed.

Lemma registerFunctions_snoc (rs : list Registration) (r : Registration)
    (reg : Registry) :
  registerFunctions (rs ++ [r]) reg =
  registerFunction (reg_name r) (reg_description r) (reg_parameters r) (reg_fn r)
                   (registerFunctions rs reg).
Proof. unfold registerFunctions. by rewrite foldl_snoc. Qed.

Lemma registerFunctions_last (rs : list Registration) (reg : Registry)
    (name : string) (r : Registration) :
  last (filter (λ x, reg_name x = name) rs) = Some r →
  functions (registerFunctions rs reg) !! name = Some (reg_fn r).
Proof.
  induction rs as [|x rs IH] using rev_ind; [done|].
  rewrite filter_app, registerFunctions_snoc, filter_cons, filter_nil. simpl.
  destruct (decide (reg_name x = name)) as [<-|Hne].
  - rewrite last_snoc. intros [= ->]. apply lookup_insert_eq.
  - rewrite app_nil_r, lookup_insert_ne by done. apply IH.
Qed.

(** C6. After any sequence of [registerFunction] calls, a tool call by
    a name invokes the handler of the last registration of that name (for
    a name registered twice, the second handler) on the parsed arguments
    and the thread id: the process is left as that handler leaves it, the
    output of the call carries the id of the call and the text of what that
    handler returned, and an error of that handler is the error of the
    call. *)
Theorem registerFunction_last_wins (rs : list Registration) (reg : Registry)
    (r : Registration) (args : json) (threadId : string) (toolCall : ToolCall)
    (w : World) :
  last (filter (λ x, reg_name x = function_name toolCall) rs) = Some r →
  JSON_parse (function_arguments toolCall) = Some args →
  functions (registerFunctions rs reg) !! function_name toolCall = Some (reg_fn r) ∧
  callTool JSON_parse JSON_stringify (registerFunctions rs reg) threadId toolCall w =
    (match fst (reg_fn r args threadId w) with
     | Returned v => Returned (mkToolOutput (call_id toolCall) (JSON_stringify v))
     | Thrown e => Thrown e
     end, snd (reg_fn r args threadId w)).
Proof.
  intros Hlast Hargs.
  pose proof (registerFunctions_last rs reg _ r Hlast) as Hfn.
  split; [done|]. apply callTool_calls; [done|]. by apply function_named_own.
Qed.

End Dispatch.

Lemma registerFunction_last_wins_witness :
  last (filter (λ x, reg_name x = "model_infos") registered_twice)
    = Some (mkRegistration "model_infos" "Retrieves general informations." []
              model_infos_next) ∧
  parse_known "{}" = Some (JObj []) ∧
  functions (registerFunctions registered_twice (no_functions Object_prototype))
    !! "model_infos" = Some model_infos_next ∧
  callTool parse_known stringify
           (registerFunctions registered_twice (no_functions Object_prototype))
           "thread_1" (mkToolCall "call_1" "model_infos" "{}") started =
    (Returned (mkToolOutput "call_1" (stringify (JObj [("version", JStr "0.0.2")]))),
     started).
Proof.
  split; [reflexivity|]. split; [reflexivity|].
  exact (registerFunction_last_wins parse_known stringify registered_twice
           (no_functions Object_prototype)
           (mkRegistration "model_infos" "Retrieves general informations." []
              model_infos_next)
           (JObj []) "thread_1" (mkToolCall "call_1" "model_infos" "{}") started
           eq_refl eq_refl).
Defined.

(** ** Batches of tool calls *)

Lemma Promise_all_thrown {A} (rs : list (Completion A)) (r : Completion A) :
  r ∈ rs → is_thrown r = true → ∃ e, Promise_all rs = Thrown e.
Proof.
  induction rs as [|x rs IH]; intros Hin Hr; [by apply elem_of_nil in Hin|].
  apply elem_of_cons in Hin as [<-|Hin].
  - destruct r as [a|e]; [done | by exists e].
  - destruct (IH Hin Hr) as [e He]. simpl. rewrite He.
    destruct x as [a|e']; eauto.
Qed.

Lemma Promise_all_returned {A} (rs : list (Completion A)) :
  (∀ r, r ∈ rs → is_thrown r = false) →
  ∃ l, Promise_all rs = Returned l ∧ rs = Returned <$> l.
Proof.
  induction rs as [|x rs IH]; intros Hall; [by exists []|].
  destruct IH as (l & Hl & ->); [intros r Hr; apply Hall; by right|].
  destruct x as [a|e].
  - exists (a :: l). simpl. by rewrite Hl.
  - by specialize (Hall (Thrown e) (list_elem_of_here _ _)).
Qed.

Section Batches.

Variable JSON_parse : string → option json.
Variable JSON_stringify : json → option string.
Variable submitToolOutputsStream :
  OpenAI → string → string → list ToolOutput → AssistantStream * OpenAI.

Lemma callTool_call_id (reg : Registry) (threadId : string) (toolCall : ToolCall)
    (w : World) (o : ToolOutput) :
  fst (callTool JSON_parse JSON_stringify reg threadId toolCall w) = Returned o →
  tool_call_id o = call_id toolCall.
Proof.
  unfold callTool, invoke.
  destruct (JSON_parse (function_arguments toolCall)) as [args|]; [|done].
  destruct (function_named reg (function_name toolCall)) as [fn|]; [|done].
  destruct (fn args threadId w) as [[v|e] w1]; simpl; [|done].
  by intros [= <-].
Qed.

(** Every call of a batch gets its callback run, in some state of the
    process, and the results come in the order of the calls. *)
Lemma callTools_results (reg : Registry) (threadId : string)
    (calls : list ToolCall) (w : World) :
  Forall2 (λ toolCall r,
             ∃ wk, r = fst (callTool JSON_parse JSON_stringify reg threadId toolCall wk))
          calls (fst (callTools JSON_parse JSON_stringify reg threadId calls w)).
Proof.
  revert w. induction calls as [|toolCall calls IH]; intros w; simpl; [constructor|].
  destruct (callTool JSON_parse JSON_stringify reg threadId toolCall w)
    as [r w1] eqn:Hr.
  specialize (IH w1).
  destruct (callTools JSON_parse JSON_stringify reg threadId calls w1) as [rs w2].
  simpl. constructor; [|done]. exists w. by rewrite Hr.
Qed.

Lemma callTools_length (reg : Registry) (threadId : string)
    (calls : list ToolCall) (w : World) :
  length (fst (callTools JSON_parse JSON_stringify reg threadId calls w)) = length calls.
Proof. symmetry. eapply Forall2_length, callTools_results. Qed.

Lemma callTools_call_ids (reg : Registry) (threadId : string)
    (calls : list ToolCall) (w : World) (toolOutputs : list ToolOutput) :
  fst (callTools JSON_parse JSON_stringify reg threadId calls w)
    = Returned <$> toolOutputs →
  tool_call_id <$> toolOutputs = call_id <$> calls.
Proof.
  intros Hres. pose proof (callTools_results reg threadId calls w) as Hall.
  rewrite Hres in Hall. clear Hres. revert toolOutputs Hall.
  induction calls as [|toolCall calls IH]; intros [|o outs] Hall;
    inversion Hall as [|? ? ? ? [wk Hk] Hrest]; subst; [done|].
  rewrite !fmap_cons. f_equal; [|by apply IH].
  by apply (callTool_call_id reg threadId toolCall wk).
Qed.

(** A batch in which a call fails is not submitted. *)
Lemma onEvent_requires_action_thrown (fuel : nat) (reg : Registry) (data : Run)
    (p : Promise) (w : World) (r : Completion ToolOutput) :
  r ∈ fst (callTools JSON_parse JSON_stringify reg (thread_id data) (tool_calls data) w) →
  is_thrown r = true →
  onEvent JSON_parse JSON_stringify submitToolOutputsStream (S fuel) reg
          (thread_run_requires_action data) p w =
  Some (p, console_error "Error processing required action:"
             (snd (callTools JSON_parse JSON_stringify reg (thread_id data)
                     (tool_calls data) w))).
Proof.
  intros Hin Hr. simpl. unfold handleRequiresAction.
  destruct (callTools JSON_parse JSON_stringify reg (thread_id data)
              (tool_calls data) w) as [results w1].
  simpl in *. by destruct (Promise_all_thrown results r Hin Hr) as [e ->].
Qed.

(** C1, as the code has it. The callbacks of a batch of N tool calls give
    N results, in the order of the calls. When one or more of them throw,
    the run event processor logs the error and submits nothing: the caller's
    result is left as it was and the service receives no tool outputs for
    the batch. When none throws, it submits one batch of N outputs whose ids
    are the ids of the calls, in order. *)
Theorem handleRequiresAction_all_or_nothing
    (fuel : nat) (reg : Registry) (data : Run) (p : Promise) (w : World) :
  length (fst (callTools JSON_parse JSON_stringify reg (thread_id data)
                 (tool_calls data) w)) = length (tool_calls data) ∧
  ((∃ r, r ∈ fst (callTools JSON_parse JSON_stringify reg (thread_id data)
                    (tool_calls data) w) ∧ is_thrown r = true) →
     ∃ w',
       onEvent JSON_parse JSON_stringify submitToolOutputsStream (S fuel) reg
               (thread_run_requires_action data) p w = Some (p, w') ∧
       client w' = client (snd (callTools JSON_parse JSON_stringify reg (thread_id data)
                                  (tool_calls data) w)) ∧
       stderr w' = stderr (snd (callTools JSON_parse JSON_stringify reg (thread_id data)
                                  (tool_calls data) w))
                   ++ ["Error processing required action:"]) ∧
  ((∀ r, r ∈ fst (callTools JSON_parse JSON_stringify reg (thread_id data)
                    (tool_calls data) w) → is_thrown r = false) →
     ∃ toolOutputs,
       fst (callTools JSON_parse JSON_stringify reg (thread_id data)
              (tool_calls data) w) = Returned <$> toolOutputs ∧
       length toolOutputs = length (tool_calls data) ∧
       tool_call_id <$> toolOutputs = call_id <$> tool_calls data ∧
       onEvent JSON_parse JSON_stringify submitToolOutputsStream (S fuel) reg
               (thread_run_requires_action data) p w =
       submitToolOutputs submitToolOutputsStream
         (onEvent JSON_parse JSON_stringify submitToolOutputsStream fuel reg)
         toolOutputs (run_id data) (thread_id data) p
         (snd (callTools JSON_parse JSON_stringify reg (thread_id data)
                 (tool_calls data) w))).
Proof.
  split; [apply callTools_length|]. split.
  - intros (r & Hin & Hr).
    rewrite (onEvent_requires_action_thrown fuel reg data p w r Hin Hr).
    eexists. split; [done|]. done.
  - intros Hall.
    destruct (Promise_all_returned _ Hall) as (outs & Hp & Hres).
    exists outs. split; [done|].
    pose proof (callTools_call_ids reg (thread_id data) (tool_calls data) w outs Hres)
      as Hids.
    split; [by rewrite <- (length_fmap tool_call_id), Hids, length_fmap|].
    split; [done|].
    simpl. unfold handleRequiresAction.
    destruct (callTools JSON_parse JSON_stringify reg (thread_id data)
                (tool_calls data) w) as [results w1].
    simpl in *. by rewrite Hp.
Qed.

(** A call by a name that does not read as a function fails the whole
    batch. *)
Lemma callTools_unregistered (reg : Registry) (threadId : string)
    (calls : list ToolCall) (w : World) (toolCall : ToolCall) (args : json) :
  toolCall ∈ calls →
  JSON_parse (function_arguments toolCall) = Some args →
  function_named reg (function_name toolCall) = None →
  ∃ r, r ∈ fst (callTools JSON_parse JSON_stringify reg threadId calls w) ∧
       is_thrown r = true.
Proof.
  intros Hin Hargs Hfn.
  apply list_elem_of_lookup in Hin as [k Hk].
  destruct (Forall2_lookup_l _ _ _ k toolCall
              (callTools_results reg threadId calls w) Hk) as (r & Hr & wk & Hwk).
  exists r. split; [by eapply list_elem_of_lookup_2|].
  by rewrite Hwk, (callTool_unregistered JSON_parse JSON_stringify reg args threadId
                     toolCall wk Hargs Hfn).
Qed.

(** C5, as the code has it. The dispatch of a tool call checks nothing.
    Arguments that do not conform to the schema the handler was registered
    with are handed to the handler as they are: the process is left as the
    handler leaves it, the output carries the id of the call and the text of
    what the handler returned, and an error of the handler is the error of
    the call.  A call by a name that was not registered reads the name off
    the [functions] object all the same: when the object inherits a function
    under the name, that function is called like a handler; when it
    inherits none, the call throws a [TypeError] in the callback of the
    batch, which [handleRequiresAction] catches and logs, so that the event
    is handled without an error for its caller and without a submission. *)
Theorem dispatch_checks_nothing (fuel : nat) :
  (∀ reg name description parameters fn args threadId toolCall w,
     function_name toolCall = name →
     JSON_parse (function_arguments toolCall) = Some args →
     conforms parameters args = false →
     callTool JSON_parse JSON_stringify
              (registerFunction name description parameters fn reg)
              threadId toolCall w =
     (match fst (fn args threadId w) with
      | Returned v => Returned (mkToolOutput (call_id toolCall) (JSON_stringify v))
      | Thrown e => Thrown e
      end, snd (fn args threadId w))) ∧
  (∀ reg fn args threadId toolCall w,
     JSON_parse (function_arguments toolCall) = Some args →
     functions reg !! function_name toolCall = None →
     inherited reg (functions reg) (function_name toolCall) = Some fn →
     callTool JSON_parse JSON_stringify reg threadId toolCall w =
     (match fst (fn args threadId w) with
      | Returned v => Returned (mkToolOutput (call_id toolCall) (JSON_stringify v))
      | Thrown e => Thrown e
      end, snd (fn args threadId w))) ∧
  (∀ reg args data p w toolCall,
     toolCall ∈ tool_calls data →
     JSON_parse (function_arguments toolCall) = Some args →
     functions reg !! function_name toolCall = None →
     inherited reg (functions reg) (function_name toolCall) = None →
     (∀ wk, callTool JSON_parse JSON_stringify reg (thread_id data) toolCall wk =
            (Thrown (TypeError "functions[toolCall.function.name] is not a function"),
             wk)) ∧
     onEvent JSON_parse JSON_stringify submitToolOutputsStream (S fuel) reg
             (thread_run_requires_action data) p w =
     Some (p, console_error "Error processing required action:"
                (snd (callTools JSON_parse JSON_stringify reg (thread_id data)
                        (tool_calls data) w)))).
Proof.
  split; [|split].
  - intros reg name description parameters fn args threadId toolCall w Hname Hargs _.
    apply callTool_calls; [done|]. apply function_named_own.
    simpl. rewrite Hname. apply lookup_insert_eq.
  - intros reg fn args threadId toolCall w Hargs Hown Hfn.
    apply callTool_calls; [done|]. by rewrite function_named_inherited.
  - intros reg args data p w toolCall Hin Hargs Hown Hfn.
    assert (Hnone : function_named reg (function_name toolCall) = None).
    { by rewrite function_named_inherited. }
    split.
    + intros wk. by apply (callTool_unregistered _ _ reg args).
    + destruct (callTools_unregistered reg (thread_id data) (tool_calls data) w
                  toolCall args Hin Hargs Hnone) as (r & Hr & Hthrown).
      by apply (onEvent_requires_action_thrown fuel reg data p w r).
Qed.

End Batches.

(** A batch of two calls, one of which throws: nothing is submitted, and
    the caller's result stays pending. *)
Lemma handleRequiresAction_one_throws_counterexample :
  length (tool_calls two_calls) = 2%nat ∧
  is_thrown <$> fst (callTools parse_known stringify two_tools "thread_1"
                       (tool_calls two_calls) started) = [false; true] ∧
  observed (onEvent parse_known stringify (answering "Fertig.") 3 two_tools
              (thread_run_requires_action two_calls) None started)
    = Some (None, [], ["Error processing required action:"]).
Proof. vm_compute. done. Qed.

Lemma handleRequiresAction_all_or_nothing_witness :
  (∃ r, r ∈ fst (callTools parse_known stringify two_tools (thread_id two_calls)
                   (tool_calls two_calls) started) ∧ is_thrown r = true) ∧
  (∃ w',
     onEvent parse_known stringify (answering "Fertig.") 3 two_tools
             (thread_run_requires_action two_calls) None started = Some (None, w') ∧
     client w' = client (snd (callTools parse_known stringify two_tools
                                (thread_id two_calls) (tool_calls two_calls) started)) ∧
     stderr w' = stderr (snd (callTools parse_known stringify two_tools
                                (thread_id two_calls) (tool_calls two_calls) started))
                 ++ ["Error processing required action:"]) ∧
  (∀ r, r ∈ fst (callTools parse_known stringify searching (thread_id two_calls)
                   (tool_calls two_calls) started) → is_thrown r = false) ∧
  (∃ toolOutputs,
     fst (callTools parse_known stringify searching (thread_id two_calls)
            (tool_calls two_calls) started) = Returned <$> toolOutputs ∧
     length toolOutputs = 2%nat ∧
     tool_call_id <$> toolOutputs = ["call_1"; "call_2"] ∧
     onEvent parse_known stringify (answering "Fertig.") 3 searching
             (thread_run_requires_action two_calls) None started =
     submitToolOutputs (answering "Fertig.")
       (onEvent parse_known stringify (answering "Fertig.") 2 searching)
       toolOutputs "run_1" "thread_1" None
       (snd (callTools parse_known stringify searching (thread_id two_calls)
               (tool_calls two_calls) started))) ∧
  observed (onEvent parse_known stringify (answering "Fertig.") 3 searching
              (thread_run_requires_action two_calls) None started)
    = Some (Some "Fertig.",
            [mkSubmission "thread_1" "run_1"
               [mkToolOutput "call_1"
                  (stringify (JObj [("author", JStr "Lukas Leisten / Jendrik Wendt");
                                    ("version", JStr "0.0.1")]));
                mkToolOutput "call_2"
                  (stringify (JObj [("_type", JStr "SearchResponse")]))]],
            []).
Proof.
  assert (Hthrown : ∃ r, r ∈ fst (callTools parse_known stringify two_tools
                     (thread_id two_calls) (tool_calls two_calls) started)
                     ∧ is_thrown r = true).
  { eexists. split; [right; left|]. reflexivity. }
  assert (Hfine : ∀ r, r ∈ fst (callTools parse_known stringify searching
                     (thread_id two_calls) (tool_calls two_calls) started)
                     → is_thrown r = false).
  { intros r Hr. vm_compute in Hr.
    apply elem_of_cons in Hr as [->|Hr]; [done|].
    apply elem_of_cons in Hr as [->|Hr]; [done|].
    by apply elem_of_nil in Hr. }
  destruct (handleRequiresAction_all_or_nothing parse_known stringify
              (answering "Fertig.") 2 two_tools two_calls None started)
    as (_ & Hno & _).
  destruct (handleRequiresAction_all_or_nothing parse_known stringify
              (answering "Fertig.") 2 searching two_calls None started)
    as (_ & _ & Hyes).
  split; [exact Hthrown|]. split; [exact (Hno Hthrown)|].
  split; [exact Hfine|]. split; [exact (Hyes Hfine)|].
  vm_compute. reflexivity.
Defined.

Lemma dispatch_checks_nothing_witness :
  conforms bing_web_search_parameters (JObj []) = false ∧
  callTool parse_known stringify searching "thread_1"
           (mkToolCall "call_1" "bing_web_search" "{}") started =
    (Returned (mkToolOutput "call_1"
                 (stringify (JObj [("_type", JStr "SearchResponse")]))), started) ∧
  functions two_tools !! "constructor" = None ∧
  callTool parse_known stringify two_tools "thread_1"
           (mkToolCall "call_1" "constructor" "{}") started =
    (Returned (mkToolOutput "call_1" (stringify (JObj []))), started) ∧
  functions two_tools !! "get_current_weather" = None ∧
  inherited two_tools (functions two_tools) "get_current_weather" = None ∧
  (∀ wk, callTool parse_known stringify two_tools "thread_1"
           (mkToolCall "call_1" "get_current_weather" "{}") wk =
         (Thrown (TypeError "functions[toolCall.function.name] is not a function"), wk)) ∧
  onEvent parse_known stringify (answering "Fertig.") 3 two_tools
          (thread_run_requires_action unknown_call) None started =
    Some (None, console_error "Error processing required action:"
                  (snd (callTools parse_known stringify two_tools "thread_1"
                          (tool_calls unknown_call) started))).
Proof.
  destruct (dispatch_checks_nothing parse_known stringify (answering "Fertig.") 2)
    as (Hargs & Hinherited & Hname).
  split; [reflexivity|]. split.
  { exact (Hargs first_registration "bing_web_search"
             "Searches the web using the Bing search engine."
             bing_web_search_parameters (bing_web_search found) (JObj []) "thread_1"
             (mkToolCall "call_1" "bing_web_search" "{}") started
             eq_refl eq_refl eq_refl). }
  split; [reflexivity|]. split.
  { exact (Hinherited two_tools
             (λ args _ w, (Returned (match args with
                                     | JNull | JUndefined => JObj []
                                     | _ => args
                                     end), w))
             (JObj []) "thread_1" (mkToolCall "call_1" "constructor" "{}") started
             eq_refl eq_refl eq_refl). }
  split; [reflexivity|]. split; [reflexivity|].
  exact (Hname two_tools (JObj []) unknown_call None started
           (mkToolCall "call_1" "get_current_weather" "{}")
           (list_elem_of_here _ _) eq_refl eq_refl eq_refl).
Defined.

(** Arguments without the required [q] reach the handler and the call
    returns; a call by an unknown name throws a [TypeError] that ends in the
    log, with nothing for the caller of the processor to see. *)
Lemma dispatch_counterexample :
  conforms bing_web_search_parameters (JObj []) = false ∧
  fst (callTool parse_known stringify searching "thread_1"
         (mkToolCall "call_1" "bing_web_search" "{}") started)
    = Returned (mkToolOutput "call_1"
                  (stringify (JObj [("_type", JStr "SearchResponse")]))) ∧
  functions two_tools !! "get_current_weather" = None ∧
  fst (callTool parse_known stringify two_tools "thread_1"
         (mkToolCall "call_1" "get_current_weather" "{}") started)
    = Thrown (mkExn "TypeError" "functions[toolCall.function.name] is not a function") ∧
  observed (onEvent parse_known stringify (answering "Fertig.") 3 two_tools
              (thread_run_requires_action unknown_call) None started)
    = Some (None, [], ["Error processing required action:"]).
Proof. vm_compute. done. Qed.

(** ** The end of a run *)

Lemma find_none_of {A} (f : A → bool) (l : list A) :
  (∀ x, x ∈ l → f x = false) → find f l = None.
Proof.
  induction l as [|x l IH]; intros Hall; [done|]. simpl.
  rewrite (Hall x) by (by left). apply IH. intros y Hy. apply Hall. by right.
Qed.

Section Events.

Variable JSON_parse : string → option json.
Variable JSON_stringify : json → option string.
Variable submitToolOutputsStream :
  OpenAI → string → string → list ToolOutput → AssistantStream * OpenAI.

(** C2, as the code has it. On a "run completed" event whose thread has
    no message of the assistant, or whose first message of the assistant
    has no content or a first content block that is not text, the run event
    processor returns without an error and without resolving: the caller's
    result is what it was before the event, pending if it was pending, and
    nothing is logged. *)
Theorem completed_without_answer
    (fuel : nat) (reg : Registry) (data : Run) (p : Promise) (w : World)
    (messages : list Message) :
  messages_list (thread_id data) w = Returned messages →
  (∀ m, m ∈ messages → role m ≠ "assistant") ∨
  (∃ m, find (λ m, String.eqb (role m) "assistant") messages = Some m ∧
        ∀ value, head (content m) ≠ Some (TextContentBlock value)) →
  onEvent JSON_parse JSON_stringify submitToolOutputsStream (S fuel) reg
          (thread_run_completed data) p w = Some (p, w).
Proof.
  intros Hlist Hno. simpl. rewrite Hlist. unfold answer_of.
  destruct Hno as [Hnone|(m & Hm & Hcontent)].
  - rewrite find_none_of; [done|].
    intros m Hm. apply String.eqb_neq. by apply Hnone.
  - rewrite Hm. destruct (head (content m)) as [[value|type]|] eqn:Hhead; [|done..].
    by destruct (Hcontent value).
Qed.

(** C3, as the code has it. On a "run failed" event the run event
    processor resolves the caller's result with the text
    "Der Run ist fehlgeschlagen: " followed by the message of the upstream
    error (or by "undefined" when the run carries none), and no error
    reaches the caller. A "run cancelled" event is not handled: the
    processor returns and the caller's result is what it was before. *)
Theorem failed_resolves_cancelled_does_not
    (fuel : nat) (reg : Registry) (data : Run) (p : Promise) (w : World) :
  onEvent JSON_parse JSON_stringify submitToolOutputsStream (S fuel) reg
          (thread_run_failed data) p w = Some (resolve (failure_text data) p, w) ∧
  resolve (failure_text data) None = Some (failure_text data) ∧
  (∀ e, last_error data = Some e →
        failure_text data = "Der Run ist fehlgeschlagen: " +:+ error_message e) ∧
  (last_error data = None →
        failure_text data = "Der Run ist fehlgeschlagen: undefined") ∧
  onEvent JSON_parse JSON_stringify submitToolOutputsStream (S fuel) reg
          (thread_run_cancelled data) p w = Some (p, w).
Proof.
  split; [done|]. split; [done|]. split; [|split; [|done]].
  - intros e He. unfold failure_text. by rewrite He.
  - intros He. unfold failure_text. by rewrite He.
Qed.

End Events.

Lemma completed_without_answer_witness :
  messages_list (thread_id finished_run) asked
    = Returned [mkMessage "user" [TextContentBlock "Hallo"]] ∧
  ((∀ m, m ∈ [mkMessage "user" [TextContentBlock "Hallo"]] → role m ≠ "assistant") ∨
   (∃ m, find (λ m, String.eqb (role m) "assistant")
              [mkMessage "user" [TextContentBlock "Hallo"]] = Some m ∧
         ∀ value, head (content m) ≠ Some (TextContentBlock value))) ∧
  onEvent parse_known stringify (answering "Fertig.") 1 first_registration
          (thread_run_completed finished_run) None asked = Some (None, asked).
Proof.
  assert (Hno : (∀ m, m ∈ [mkMessage "user" [TextContentBlock "Hallo"]]
                      → role m ≠ "assistant") ∨
                (∃ m, find (λ m, String.eqb (role m) "assistant")
                           [mkMessage "user" [TextContentBlock "Hallo"]] = Some m ∧
                      ∀ value, head (content m) ≠ Some (TextContentBlock value))).
  { left. intros m Hm. apply list_elem_of_singleton in Hm as ->. done. }
  split; [reflexivity|]. split; [exact Hno|].
  exact (completed_without_answer parse_known stringify (answering "Fertig.") 0
           first_registration finished_run None asked
           [mkMessage "user" [TextContentBlock "Hallo"]] eq_refl Hno).
Defined.

(** A run that completes on a thread without a message of the assistant:
    the event is handled, and the caller's result is still pending, also
    after the whole stream of the run. *)
Lemma completed_without_answer_counterexample :
  messages_list "thread_1" asked = Returned [mkMessage "user" [TextContentBlock "Hallo"]] ∧
  observed (onEvent parse_known stringify (answering "Fertig.") 1 first_registration
              (thread_run_completed finished_run) None asked)
    = Some (None, [], []) ∧
  answer (createMessage parse_known stringify (answering "Fertig.") completes_silently
            1 first_registration "4915112345" "thread_1" "Hallo" started)
    = Some (Returned None).
Proof. vm_compute. done. Qed.

(** A cancelled run: the event is handled, and the caller's result is
    still pending. *)
Lemma cancelled_counterexample :
  observed (onEvent parse_known stringify (answering "Fertig.") 1 first_registration
              (thread_run_cancelled cancelled_run) None asked)
    = Some (None, [], []) ∧
  answer (createMessage parse_known stringify (answering "Fertig.") gets_cancelled
            1 first_registration "4915112345" "thread_1" "Hallo" started)
    = Some (Returned None).
Proof. vm_compute. done. Qed.

(** * Further properties *)

(** ** The timer map as a projection of the store *)

Lemma unique_row (l : list Job) (j k : Job) :
  NoDup (job_id <$> l) → j ∈ l → k ∈ l → job_id j = job_id k → j = k.
Proof.
  induction l as [|x l IH]; intros Hnd Hj Hk Hid; [by apply elem_of_nil in Hj|].
  rewrite fmap_cons in Hnd. apply NoDup_cons in Hnd as [Hx Hnd].
  apply elem_of_cons in Hj as [->|Hj]; apply elem_of_cons in Hk as [->|Hk].
  - done.
  - destruct Hx. rewrite Hid. by apply list_elem_of_fmap_2.
  - destruct Hx. rewrite <- Hid. by apply list_elem_of_fmap_2.
  - by apply IH.
Qed.

Lemma filter_by_id (l : list Job) (j : Job) :
  NoDup (job_id <$> l) → j ∈ l → filter (λ k, job_id k = job_id j) l = [j].
Proof.
  intros Hnd Hj. apply filter_only; [by eapply NoDup_fmap_1 | done | done |].
  intros k Hk Hid. by apply (unique_row l).
Qed.

Lemma select_job_stored (d : Database) (j : Job) :
  NoDup (job_id <$> jobs d) → j ∈ jobs d → select_job d (job_id j) = Some j.
Proof. intros Hnd Hj. unfold select_job. by rewrite filter_by_id. Qed.

Lemma createPrompts_unregistered (registrations : list Job) (w : World) (i : Z) :
  i ∉ job_id <$> registrations →
  cronJobs (createPrompts registrations w) !! i = cronJobs w !! i.
Proof.
  induction registrations as [|job js IH] using rev_ind; [done|].
  rewrite fmap_app, not_elem_of_app. intros [Hjs Hjob].
  rewrite createPrompts_snoc, createPrompt_cronJobs_other; [by apply IH|].
  intros Heq. apply Hjob. rewrite <- Heq. by left.
Qed.

Lemma startup_db (known : string → bool) (d : Database) (api : OpenAI) :
  all_accepted (jobs d) (initial_World known d api) →
  db (snd (startup (initial_World known d api))) = d.
Proof. intros Hacc. rewrite startup_accepted by done. apply createPrompts_db. Qed.

Lemma startup_stored (known : string → bool) (d : Database) (api : OpenAI) (j : Job) :
  all_accepted (jobs d) (initial_World known d api) →
  NoDup (job_id <$> jobs d) → j ∈ jobs d →
  ∃ h, cronJobs (snd (startup (initial_World known d api))) !! job_id j = Some h ∧
       timers (snd (startup (initial_World known d api))) !! h =
         Some (running_timer j (select_timezone d (job_tenant j))).
Proof.
  intros Hacc Hnd Hj. rewrite startup_accepted by done.
  apply (createPrompts_last (jobs d) (initial_World known d api) (job_id j) j
           (initial_timers_sound known d api)).
  - by rewrite filter_by_id.
  - by apply Hacc.
Qed.

Lemma startup_missing (known : string → bool) (d : Database) (api : OpenAI) (i : Z) :
  all_accepted (jobs d) (initial_World known d api) →
  i ∉ job_id <$> jobs d →
  cronJobs (snd (startup (initial_World known d api))) !! i = None.
Proof.
  intros Hacc Hi. rewrite startup_accepted by done. simpl.
  by rewrite createPrompts_unregistered.
Qed.

Lemma startup_projection (known : string → bool) (d : Database) (api : OpenAI) :
  all_accepted (jobs d) (initial_World known d api) →
  NoDup (job_id <$> jobs d) →
  schedule_ok (snd (startup (initial_World known d api))).
Proof.
  intros Hacc Hnd. pose proof (startup_db known d api Hacc) as Hdb.
  split.
  - by rewrite Hdb.
  - by apply startup_timers_ok.
  - rewrite Hdb. intros j Hj.
    destruct (startup_stored known d api j Hacc Hnd Hj) as (h & Hc & Ht). eauto.
  - rewrite Hdb. intros i h Hc.
    destruct (decide (i ∈ job_id <$> jobs d)) as [Hi|Hi].
    + apply list_elem_of_fmap in Hi as (j & -> & Hj). eauto.
    + by rewrite startup_missing in Hc.
Qed.

(** X1. At the start of the process, when ids are unique and every stored
    job is one the constructor of the timer accepts (a minute in 0..59, an
    hour in 0..23, and the time zone of its tenant, if the store has one,
    among those the constructor accepts), the loop runs through, and one
    timer is started for every stored job, at its hour and minute and in
    the time zone of its tenant, and none for an id the store does not
    hold. *)
Theorem startup_schedule_ok (known : string → bool) (d : Database) (api : OpenAI) :
  NoDup (job_id <$> jobs d) →
  (∀ j, j ∈ jobs d → cron_accepts known j (select_timezone d (job_tenant j)) = true) →
  fst (startup (initial_World known d api)) = Returned () ∧
  schedule_ok (snd (startup (initial_World known d api))) ∧
  (∀ j, j ∈ jobs d →
     ∃ h, live_timers (snd (startup (initial_World known d api))) (job_id j) = [h] ∧
          timers (snd (startup (initial_World known d api))) !! h =
            Some (running_timer j (select_timezone d (job_tenant j)))) ∧
  (∀ i, i ∉ job_id <$> jobs d →
     live_timers (snd (startup (initial_World known d api))) i = []).
Proof.
  intros Hnd Hacc.
  assert (Hall : all_accepted (jobs d) (initial_World known d api)) by exact Hacc.
  split; [by rewrite startup_accepted|].
  split; [by apply startup_projection|]. split.
  - intros j Hj. destruct (startup_stored known d api j Hall Hnd Hj) as (h & Hc & Ht).
    exists h. split; [|done].
    apply live_timers_registered; [by apply startup_timers_ok | done].
  - intros i Hi.
    apply live_timers_unregistered; [by apply startup_timers_ok | by apply startup_missing].
Qed.

Lemma two_tenants_unique : NoDup (job_id <$> jobs two_tenants).
Proof.
  simpl. apply NoDup_cons. split; [|apply NoDup_singleton].
  intros Hin. by apply list_elem_of_singleton in Hin.
Qed.

Lemma two_tenants_accepted :
  ∀ j, j ∈ jobs two_tenants →
       cron_accepts known_zones j (select_timezone two_tenants (job_tenant j)) = true.
Proof.
  intros j Hj. apply elem_of_cons in Hj as [->|Hj]; [reflexivity|].
  apply list_elem_of_singleton in Hj as ->. reflexivity.
Qed.

Lemma shared_schedule_ok : schedule_ok shared.
Proof.
  apply startup_projection; [exact two_tenants_accepted | exact two_tenants_unique].
Qed.

Lemma startup_schedule_ok_witness :
  NoDup (job_id <$> jobs two_tenants) ∧
  (∀ j, j ∈ jobs two_tenants →
        cron_accepts known_zones j (select_timezone two_tenants (job_tenant j)) = true) ∧
  fst (startup (initial_World known_zones two_tenants chat_service)) = Returned () ∧
  schedule_ok shared ∧
  (∀ j, j ∈ jobs two_tenants →
     ∃ h, live_timers shared (job_id j) = [h] ∧
          timers shared !! h =
            Some (running_timer j (select_timezone two_tenants (job_tenant j)))) ∧
  (∀ i, i ∉ job_id <$> jobs two_tenants → live_timers shared i = []).
Proof.
  split; [exact two_tenants_unique|]. split; [exact two_tenants_accepted|].
  exact (startup_schedule_ok known_zones two_tenants chat_service
           two_tenants_unique two_tenants_accepted).
Defined.





Lemma filter_pos_inv {A} (P : A → Prop) {Pdec : ∀ x, Decision (P x)} (l : list A) :
  (0 < length (filter P l))%nat → ∃ x, x ∈ l ∧ P x.
Proof.
  destruct (filter P l) as [|x l'] eqn:Hf; simpl; [lia|]. intros _.
  assert (Hx : x ∈ filter P l) by (rewrite Hf; by left).
  apply list_elem_of_filter in Hx as [Hp Hx]. eauto.
Qed.


Lemma schedule_ok_same (w w' : World) :
  jobs (db w') = jobs (db w) → cronJobs w' = cronJobs w → timers w' = timers w →
  schedule_ok w → schedule_ok w'.
Proof.
  intros Hj Hc Ht [Hnd Hok Hstored Hsched]. split.
  - by rewrite Hj.
  - by apply (timers_ok_same w).
  - rewrite Hj, Hc, Ht. apply Hstored.
  - rewrite Hj, Hc. apply Hsched.
Qed.



(** Registering a stored row in a state where every other row and every
    other entry are in order puts the whole timer map in order. *)
Lemma createPrompt_registers (job : Job) (w : World) :
  cron_accepts (zones w) job (select_timezone (db w) (job_tenant job)) = true →
  cronJobs (snd (createPrompt (Some job) w)) !! job_id job = Some (length (timers w)) ∧
  timers (snd (createPrompt (Some job) w)) !! length (timers w) =
    Some (running_timer job (select_timezone (db w) (job_tenant job))).
Proof.
  intros Hacc. destruct (createPrompt_accepted job w Hacc) as (_ & Hc & Ht).
  destruct (stop_registered_fields (job_id job) w) as (_ & _ & _ & Hl & _).
  rewrite Hc, Ht, lookup_insert_eq. split; [done|]. by apply list_lookup_middle.
Qed.

Lemma registration_schedule_ok (w : World) (k : Job) :
  NoDup (job_id <$> jobs (db w)) → timers_ok w → k ∈ jobs (db w) →
  cron_accepts (zones w) k (select_timezone (db w) (job_tenant k)) = true →
  (∀ j, j ∈ jobs (db w) → job_id j ≠ job_id k →
        ∃ h tz, cronJobs w !! job_id j = Some h ∧
                timers w !! h = Some (running_timer j tz)) →
  (∀ i h, cronJobs w !! i = Some h → i ≠ job_id k →
          ∃ j, j ∈ jobs (db w) ∧ job_id j = i) →
  schedule_ok (snd (createPrompt (Some k) w)).
Proof.
  intros Hnd Hok Hk Hacc Hrows Hentries.
  pose proof (createPrompt_db (Some k) w) as Hdb.
  destruct (createPrompt_accepted k w Hacc) as (_ & Hc & _).
  destruct (createPrompt_registers k w Hacc) as [Hck Htk].
  split.
  - by rewrite Hdb.
  - by apply createPrompt_timers_ok.
  - rewrite Hdb. intros j Hj.
    destruct (decide (job_id j = job_id k)) as [Hid|Hid].
    + assert (j = k) as -> by (by apply (unique_row (jobs (db w)))). eauto.
    + destruct (Hrows j Hj Hid) as (h & tz & Hcj & Htj).
      destruct (createPrompt_other k w (job_id j) h (timers_ok_sound w Hok)
                  (not_eq_sym Hid) Hcj) as [Hcj' Htj'].
      exists h, tz. by rewrite Hcj', Htj'.
  - rewrite Hdb, Hc. intros i h Hi.
    destruct (decide (job_id k = i)) as [<-|Hne]; [eauto|].
    rewrite lookup_insert_ne in Hi by done. by apply (Hentries i h).
Qed.

Lemma update_jobs_ids (p : option string) (h m : option Z) (t : string) (i : Z)
    (d : Database) :
  job_id <$> jobs (snd (update_jobs p h m t i d)) = job_id <$> jobs d.
Proof.
  unfold update_jobs. simpl. rewrite <- list_fmap_compose.
  apply list_fmap_ext. intros _ j _. simpl. by destruct (decide (owned_by t i j)).
Qed.

Lemma update_jobs_elem (p : option string) (h m : option Z) (t : string) (i : Z)
    (d : Database) (j' : Job) :
  j' ∈ jobs (snd (update_jobs p h m t i d)) ↔
  ∃ j, j ∈ jobs d ∧
       j' = if decide (owned_by t i j) then update_job_row p h m j else j.
Proof.
  unfold update_jobs. simpl. rewrite list_elem_of_fmap. split.
  - intros (j & Hj' & Hj). by exists j.
  - intros (j & Hj & Hj'). by exists j.
Qed.

Lemma update_jobs_none (p : option string) (h m : option Z) (t : string) (i : Z)
    (d : Database) :
  (∀ j, j ∈ jobs d → ¬ owned_by t i j) →
  update_jobs p h m t i d = (mkRunResult 0 (lastInsertRowid d), d).
Proof.
  intros Hnone. unfold update_jobs.
  rewrite (filter_nothing (owned_by t i)) by done. f_equal.
  destruct d as [ts js li]. simpl in *. f_equal.
  induction js as [|j js IH]; [done|]. rewrite fmap_cons.
  rewrite decide_False by (apply Hnone; by left).
  f_equal. apply IH. intros k Hk. apply Hnone. by right.
Qed.

Lemma set_db_same (w : World) : set_db (db w) w = w.
Proof. by destruct w. Qed.

(** [edit_prompt] on a row of the calling tenant, ids being unique: the
    row is stored with the new values and registered again. *)
Lemma edit_prompt_owned (args : EditPromptArgs) (threadId tenant : string)
    (w : World) (k : Job) :
  NoDup (job_id <$> jobs (db w)) →
  threads_retrieve threadId w = Returned tenant →
  k ∈ jobs (db w) → owned_by tenant (edit_prompt_id args) k →
  snd (edit_prompt args threadId w) =
    snd (createPrompt
           (Some (update_job_row (edit_prompt_prompt args) (edit_prompt_hour args)
                    (edit_prompt_minute args) k))
           (set_db (snd (update_jobs (edit_prompt_prompt args) (edit_prompt_hour args)
                           (edit_prompt_minute args) tenant (edit_prompt_id args)
                           (db w))) w)) ∧
  fst (edit_prompt args threadId w) =
    match fst (createPrompt
                 (Some (update_job_row (edit_prompt_prompt args) (edit_prompt_hour args)
                          (edit_prompt_minute args) k))
                 (set_db (snd (update_jobs (edit_prompt_prompt args)
                                 (edit_prompt_hour args) (edit_prompt_minute args)
                                 tenant (edit_prompt_id args) (db w))) w)) with
    | Thrown e => Thrown e
    | Returned _ => Returned (mkRunResult 1 (lastInsertRowid (db w)))
    end.
Proof.
  intros Hnd Hthread Hk Hown.
  set (k' := update_job_row (edit_prompt_prompt args) (edit_prompt_hour args)
               (edit_prompt_minute args) k).
  assert (Hone : filter (owned_by tenant (edit_prompt_id args)) (jobs (db w)) = [k]).
  { apply filter_only; [by eapply NoDup_fmap_1 | done | done |].
    intros j Hj [_ Hji]. apply (unique_row (jobs (db w))); [done..|].
    destruct Hown as [_ Hki]. congruence. }
  assert (Hsel : select_job
            (snd (update_jobs (edit_prompt_prompt args) (edit_prompt_hour args)
                    (edit_prompt_minute args) tenant (edit_prompt_id args) (db w)))
            (edit_prompt_id args) = Some k').
  { replace (edit_prompt_id args) with (job_id k') at 2
      by (destruct Hown as [_ Hki]; exact Hki).
    apply select_job_stored; [by rewrite update_jobs_ids|].
    apply update_jobs_elem. exists k. split; [done|]. by rewrite decide_True. }
  assert (Hres : fst (update_jobs (edit_prompt_prompt args) (edit_prompt_hour args)
                        (edit_prompt_minute args) tenant (edit_prompt_id args) (db w))
                  = mkRunResult 1 (lastInsertRowid (db w))).
  { unfold update_jobs. cbn [fst]. by rewrite Hone. }
  rewrite (edit_prompt_state args threadId tenant w Hthread),
          (edit_prompt_result args threadId tenant w Hthread), Hsel, Hres.
  cbn [changes]. by rewrite !bool_decide_eq_true_2 by lia.
Qed.

(** The time zone of a tenant is not touched by an update of the jobs. *)
Lemma update_jobs_timezone (p : option string) (h m : option Z) (t : string) (i : Z)
    (d : Database) (n : string) :
  select_timezone (snd (update_jobs p h m t i d)) n = select_timezone d n.
Proof. done. Qed.

(** X6. [edit_prompt], when it returns, keeps the timer map a projection of
    the store. *)
Theorem edit_prompt_schedule_ok
    (args : EditPromptArgs) (threadId : string) (w : World) (r : RunResult) :
  schedule_ok w →
  fst (edit_prompt args threadId w) = Returned r →
  schedule_ok (snd (edit_prompt args threadId w)).
Proof.
  intros Hs Hret. destruct (threads_retrieve threadId w) as [tenant|e] eqn:Hthread;
    [|unfold edit_prompt; by rewrite Hthread].
  set (i := edit_prompt_id args).
  destruct (decide (0 < length (filter (owned_by tenant i) (jobs (db w))))%nat)
    as [Hn|Hn].
  - apply filter_pos_inv in Hn as (k & Hk & Hown).
    destruct Hs as [Hnd Hok Hstored Hsched].
    destruct (edit_prompt_owned args threadId tenant w k Hnd Hthread Hk Hown)
      as [Hstate Hresult].
    rewrite Hstate. rewrite Hresult in Hret. fold i in Hret |- *.
    set (d' := snd (update_jobs (edit_prompt_prompt args) (edit_prompt_hour args)
                    (edit_prompt_minute args) tenant i (db w))) in *.
    set (k' := update_job_row (edit_prompt_prompt args) (edit_prompt_hour args)
                 (edit_prompt_minute args) k) in *.
    assert (Hki : job_id k' = i) by (destruct Hown as [_ Hki]; exact Hki).
    assert (Hother : ∀ j', j' ∈ jobs d' → job_id j' ≠ i → j' ∈ jobs (db w)).
    { intros j' (j & Hj & ->)%update_jobs_elem Hne.
      destruct (decide (owned_by tenant i j)) as [[_ Hji]|_]; [by destruct Hne|done]. }
    assert (Hacc : cron_accepts (zones (set_db d' w)) k'
                     (select_timezone (db (set_db d' w)) (job_tenant k')) = true).
    { destruct (cron_accepts (zones (set_db d' w)) k'
                  (select_timezone (db (set_db d' w)) (job_tenant k'))) eqn:Hacc; [done|].
      destruct (createPrompt_rejected k' (set_db d' w) Hacc) as [[e He] _].
      by rewrite He in Hret. }
    apply registration_schedule_ok; [..|exact Hacc| |]; cbn [db set_db cronJobs timers].
    + unfold d'. by rewrite update_jobs_ids.
    + by apply (timers_ok_same w).
    + apply update_jobs_elem. exists k. split; [done|]. by rewrite decide_True.
    + intros j' Hj' Hne. rewrite Hki in Hne. apply Hstored. by apply Hother.
    + intros i' h Hi' Hne. rewrite Hki in Hne.
      destruct (Hsched i' h Hi') as (j & Hj & Hid). exists j. split; [|done].
      apply update_jobs_elem. exists j. split; [done|].
      rewrite decide_False; [done|]. intros [_ Hji]. congruence.
  - assert (Hnone : ∀ j, j ∈ jobs (db w) → ¬ owned_by tenant i j).
    { intros j Hj Hown. apply Hn. by apply (filter_some _ _ j). }
    unfold edit_prompt. rewrite Hthread.
    rewrite (update_jobs_none _ _ _ tenant i (db w) Hnone). simpl.
    by rewrite set_db_same.
Qed.

Lemma edit_prompt_schedule_ok_witness :
  schedule_ok shared ∧
  fst (edit_prompt (mkEditPromptArgs None (Some 6) (Some 45) 7) "thread_1" shared)
    = Returned (mkRunResult 1 8) ∧
  schedule_ok (snd (edit_prompt (mkEditPromptArgs None (Some 6) (Some 45) 7)
                      "thread_1" shared)).
Proof.
  split; [exact shared_schedule_ok|]. split; [reflexivity|].
  exact (edit_prompt_schedule_ok (mkEditPromptArgs None (Some 6) (Some 45) 7)
           "thread_1" shared (mkRunResult 1 8) shared_schedule_ok eq_refl).
Defined.



(** X23. [edit_prompt] on a prompt of the calling tenant with an hour or a
    minute that is none (or while the time zone of the tenant is one the
    constructor of the timer rejects): the row is stored with the new
    values all the same, the old timer of the id is stopped, the handler
    ends with the error of the constructor, and from then on no timer runs
    for the stored prompt, whose entry in the timer map is the stopped
    timer. *)
Theorem edit_prompt_rejected
    (args : EditPromptArgs) (threadId tenant : string) (w : World) (k : Job) :
  NoDup (job_id <$> jobs (db w)) → timers_sound w →
  threads_retrieve threadId w = Returned tenant →
  k ∈ jobs (db w) → owned_by tenant (edit_prompt_id args) k →
  cron_accepts (zones w)
    (update_job_row (edit_prompt_prompt args) (edit_prompt_hour args)
       (edit_prompt_minute args) k)
    (select_timezone (db w) tenant) = false →
  (∃ e, fst (edit_prompt args threadId w) = Thrown e) ∧
  select_job (db (snd (edit_prompt args threadId w))) (edit_prompt_id args)
    = Some (update_job_row (edit_prompt_prompt args) (edit_prompt_hour args)
              (edit_prompt_minute args) k) ∧
  live_timers (snd (edit_prompt args threadId w)) (edit_prompt_id args) = [] ∧
  cronJobs (snd (edit_prompt args threadId w)) = cronJobs w ∧
  (∀ h, cronJobs w !! edit_prompt_id args = Some h →
        running <$> timers (snd (edit_prompt args threadId w)) !! h = Some false).
Proof.
  intros Hnd Hok Hthread Hk Hown Hrej.
  destruct (edit_prompt_owned args threadId tenant w k Hnd Hthread Hk Hown)
    as [Hstate Hresult].
  rewrite Hstate, Hresult.
  set (d' := snd (update_jobs (edit_prompt_prompt args) (edit_prompt_hour args)
                  (edit_prompt_minute args) tenant (edit_prompt_id args) (db w))).
  set (k' := update_job_row (edit_prompt_prompt args) (edit_prompt_hour args)
               (edit_prompt_minute args) k) in *.
  assert (Hki : job_id k' = edit_prompt_id args) by (destruct Hown as [_ Hki]; exact Hki).
  assert (Hkt : job_tenant k' = tenant) by (destruct Hown as [Hkt _]; exact Hkt).
  assert (Hok1 : timers_sound (set_db d' w)) by (by destruct Hok).
  assert (Hrej1 : cron_accepts (zones (set_db d' w)) k'
                    (select_timezone (db (set_db d' w)) (job_tenant k')) = false).
  { cbn [zones db set_db]. by rewrite Hkt. }
  destruct (createPrompt_rejected k' (set_db d' w) Hrej1) as [[e He] Hw].
  rewrite He. split; [by exists e|]. split.
  - rewrite createPrompt_db. cbn [db set_db]. rewrite <- Hki.
    apply select_job_stored; [unfold d'; by rewrite update_jobs_ids|].
    apply update_jobs_elem. exists k. split; [done|]. by rewrite decide_True.
  - destruct (stop_registered_fields (job_id k') (set_db d' w))
      as (_ & Hc & Ht & _).
    rewrite Hw, Hc, Hki in *. cbn [cronJobs timers set_db] in *.
    split; [|split; [done|]].
    + apply live_timers_none. intros h c Hh Hid.
      destruct (running c) eqn:Hr; [|done].
      destruct (stop_registered_old (edit_prompt_id args) (set_db d' w) h c Hok1 Hh)
        as (c0 & _ & _ & Hsame).
      destruct (Hsame Hr) as [-> Hne]. done.
    + intros h Hh. rewrite Ht, Hh.
      destruct (sound_registered_own w Hok _ h Hh) as (c & Hc0 & _).
      by rewrite list_lookup_alter_eq, Hc0.
Qed.

Lemma edit_prompt_rejected_witness :
  NoDup (job_id <$> jobs (db shared)) ∧ timers_sound shared ∧
  threads_retrieve "thread_1" shared = Returned "4915112345" ∧
  morning ∈ jobs (db shared) ∧ owned_by "4915112345" 7 morning ∧
  cron_accepts (zones shared) (update_job_row None (Some 25) None morning)
    (select_timezone (db shared) "4915112345") = false ∧
  live_timers shared 7 = [0%nat] ∧
  (∃ e, fst (edit_prompt (mkEditPromptArgs None (Some 25) None 7) "thread_1" shared)
        = Thrown e) ∧
  select_job (db (snd (edit_prompt (mkEditPromptArgs None (Some 25) None 7)
                         "thread_1" shared))) 7
    = Some (mkJob 7 "4915112345" 25 30 "Good morning") ∧
  live_timers (snd (edit_prompt (mkEditPromptArgs None (Some 25) None 7)
                      "thread_1" shared)) 7 = [] ∧
  cronJobs (snd (edit_prompt (mkEditPromptArgs None (Some 25) None 7)
                   "thread_1" shared)) = cronJobs shared ∧
  (∀ h, cronJobs shared !! 7 = Some h →
        running <$> timers (snd (edit_prompt (mkEditPromptArgs None (Some 25) None 7)
                                   "thread_1" shared)) !! h = Some false).
Proof.
  split; [exact two_tenants_unique|].
  split; [exact (timers_ok_sound _ (schedule_timers_ok _ shared_schedule_ok))|].
  split; [reflexivity|]. split; [by left|]. split; [done|]. split; [reflexivity|].
  split; [reflexivity|].
  exact (edit_prompt_rejected (mkEditPromptArgs None (Some 25) None 7)
           "thread_1" "4915112345" shared morning two_tenants_unique
           (timers_ok_sound _ (schedule_timers_ok _ shared_schedule_ok)) eq_refl
           (list_elem_of_here _ _) (conj eq_refl eq_refl) eq_refl).
Defined.



(** ** Editing and reading a tenant *)

Lemma update_tenants_timezone (s z : option string) (n : string) (d : Database) :
  select_timezone (snd (update_tenants s z n d)) n =
  (λ old, COALESCE z old) <$> select_timezone d n.
Proof.
  unfold select_timezone, update_tenants. simpl.
  induction (tenants d) as [|t l IH]; [done|].
  rewrite fmap_cons, !filter_cons.
  destruct (decide (tenant_number t = n)) as [Ht|Ht].
  - simpl. by rewrite decide_True by done.
  - by rewrite decide_False by done.
Qed.

Lemma update_tenants_row (s z : option string) (n : string) (d : Database) :
  select_tenant (snd (update_tenants s z n d)) n =
  update_tenant_row s z <$> select_tenant d n.
Proof.
  unfold select_tenant, update_tenants. simpl.
  induction (tenants d) as [|t l IH]; [done|].
  rewrite fmap_cons, !filter_cons.
  destruct (decide (tenant_number t = n)) as [Ht|Ht].
  - simpl. by rewrite decide_True by done.
  - by rewrite decide_False by done.
Qed.

Lemma update_tenants_others (s z : option string) (n : string) (d : Database) :
  filter (λ t, tenant_number t ≠ n) (tenants (snd (update_tenants s z n d))) =
  filter (λ t, tenant_number t ≠ n) (tenants d).
Proof.
  unfold update_tenants. simpl. induction (tenants d) as [|t l IH]; [done|].
  rewrite fmap_cons, !filter_cons, IH.
  destruct (decide (tenant_number t = n)) as [Ht|Ht]; [|done].
  simpl. by rewrite !decide_False by (intros Hne; by apply Hne).
Qed.

(** What [edit_tenant] leaves behind, whether it returns or throws. *)
Lemma edit_tenant_fields (args : EditTenantArgs) (threadId tenant : string) (w : World) :
  threads_retrieve threadId w = Returned tenant →
  db (snd (edit_tenant args threadId w)) =
    snd (update_tenants (edit_tenant_system args) (edit_tenant_timezone args)
           tenant (db w)) ∧
  cronJobs (snd (edit_tenant args threadId w)) = cronJobs w ∧
  timers (snd (edit_tenant args threadId w)) = timers w ∧
  assistants (snd (edit_tenant args threadId w)) = assistants w ∧
  threads (snd (edit_tenant args threadId w)) = threads w ∧
  api_threads (client (snd (edit_tenant args threadId w))) = api_threads (client w).
Proof.
  intros Hthread. unfold edit_tenant. rewrite Hthread. simpl.
  case_bool_decide; [|done].
  destruct (assistants w !! tenant) as [a|]; [|done]. simpl.
  unfold assistants_update. by destruct (api_assistants (client w) !! assistant_id a).
Qed.

(** X9. [edit_tenant] changes the row of the calling tenant and nothing else of
    the store or of the timers: the rows of the other tenants, the jobs, the
    timer map and the timers are what they were, so a running timer keeps
    the time zone it was started with. *)
Theorem edit_tenant_leaves_schedule
    (args : EditTenantArgs) (threadId tenant : string) (w : World) :
  threads_retrieve threadId w = Returned tenant →
  filter (λ t, tenant_number t ≠ tenant) (tenants (db (snd (edit_tenant args threadId w))))
    = filter (λ t, tenant_number t ≠ tenant) (tenants (db w)) ∧
  jobs (db (snd (edit_tenant args threadId w))) = jobs (db w) ∧
  cronJobs (snd (edit_tenant args threadId w)) = cronJobs w ∧
  timers (snd (edit_tenant args threadId w)) = timers w ∧
  (schedule_ok w → schedule_ok (snd (edit_tenant args threadId w))).
Proof.
  intros Hthread.
  destruct (edit_tenant_fields args threadId tenant w Hthread) as (Hdb & Hc & Ht & _).
  assert (Hjobs : jobs (db (snd (edit_tenant args threadId w))) = jobs (db w)).
  { by rewrite Hdb. }
  split; [rewrite Hdb; apply update_tenants_others|].
  do 3 (split; [done|]). by apply schedule_ok_same.
Qed.

Lemma edit_tenant_leaves_schedule_witness :
  threads_retrieve "thread_1" shared = Returned "4915112345" ∧
  filter (λ t, tenant_number t ≠ "4915112345")
    (tenants (db (snd (edit_tenant (mkEditTenantArgs None (Some "Asia/Tokyo"))
                         "thread_1" shared))))
    = filter (λ t, tenant_number t ≠ "4915112345") (tenants (db shared)) ∧
  jobs (db (snd (edit_tenant (mkEditTenantArgs None (Some "Asia/Tokyo"))
                   "thread_1" shared))) = jobs (db shared) ∧
  cronJobs (snd (edit_tenant (mkEditTenantArgs None (Some "Asia/Tokyo"))
                   "thread_1" shared)) = cronJobs shared ∧
  timers (snd (edit_tenant (mkEditTenantArgs None (Some "Asia/Tokyo"))
                 "thread_1" shared)) = timers shared ∧
  (schedule_ok shared →
   schedule_ok (snd (edit_tenant (mkEditTenantArgs None (Some "Asia/Tokyo"))
                       "thread_1" shared))).
Proof.
  split; [reflexivity|].
  exact (edit_tenant_leaves_schedule (mkEditTenantArgs None (Some "Asia/Tokyo"))
           "thread_1" "4915112345" shared eq_refl).
Defined.

Lemma edit_tenant_zones (args : EditTenantArgs) (threadId : string) (w : World) :
  zones (snd (edit_tenant args threadId w)) = zones w.
Proof.
  unfold edit_tenant. destruct (threads_retrieve threadId w) as [tenant|e]; [|done].
  simpl. case_bool_decide; [|done]. by destruct (assistants w !! tenant).
Qed.

(** X10. [edit_tenant] stores the time zone it is given without asking
    whether it is one, and the next registration of a job of the tenant
    hands it to the constructor of the timer: when the constructor accepts
    it (and the job has a minute in 0..59 and an hour in 0..23), the timer
    is started in the new time zone; when the constructor rejects it, that
    registration throws, and no timer runs for the job. *)
Theorem edit_tenant_timezone_next_registration
    (args : EditTenantArgs) (threadId tenant z : string) (w : World) (job : Job) :
  timers_sound w →
  threads_retrieve threadId w = Returned tenant →
  is_Some (select_timezone (db w) tenant) →
  edit_tenant_timezone args = Some z →
  job_tenant job = tenant →
  select_timezone (db (snd (edit_tenant args threadId w))) tenant = Some z ∧
  (zones w z = true → pattern_accepted job = true →
   fst (createPrompt (Some job) (snd (edit_tenant args threadId w))) = Returned () ∧
   ∃ h,
     cronJobs (snd (createPrompt (Some job) (snd (edit_tenant args threadId w))))
       !! job_id job = Some h ∧
     timers (snd (createPrompt (Some job) (snd (edit_tenant args threadId w)))) !! h
       = Some (running_timer job (Some z))) ∧
  (zones w z = false →
   (∃ e, fst (createPrompt (Some job) (snd (edit_tenant args threadId w))) = Thrown e) ∧
   live_timers (snd (createPrompt (Some job) (snd (edit_tenant args threadId w))))
               (job_id job) = []).
Proof.
  intros Hok Hthread [old Hold] Hz Hjob.
  destruct (edit_tenant_fields args threadId tenant w Hthread) as (Hdb & Hc & Ht & _).
  pose proof (edit_tenant_zones args threadId w) as Hzones.
  assert (Htz : select_timezone (db (snd (edit_tenant args threadId w))) tenant = Some z).
  { by rewrite Hdb, update_tenants_timezone, Hold, Hz. }
  assert (Hok' : timers_sound (snd (edit_tenant args threadId w))).
  { destruct Hok as [Hrun Hown]. split.
    - intros h c. rewrite Hc, Ht. apply Hrun.
    - intros i h. rewrite Hc, Ht. apply Hown. }
  split; [done|]. split.
  - intros Hknown Hpat.
    assert (Hacc : cron_accepts (zones (snd (edit_tenant args threadId w))) job
                     (select_timezone (db (snd (edit_tenant args threadId w)))
                        (job_tenant job)) = true).
    { rewrite Hzones, Hjob, Htz. unfold cron_accepts. simpl. by rewrite Hknown, Hpat. }
    destruct (createPrompt_accepted job _ Hacc) as (Hret & _).
    destruct (createPrompt_registers job _ Hacc) as [Hcj Htj].
    rewrite Hjob, Htz in Htj. split; [done|]. eauto.
  - intros Hunknown.
    assert (Hrej : cron_accepts (zones (snd (edit_tenant args threadId w))) job
                     (select_timezone (db (snd (edit_tenant args threadId w)))
                        (job_tenant job)) = false).
    { rewrite Hzones, Hjob, Htz. unfold cron_accepts. simpl. by rewrite Hunknown. }
    destruct (createPrompt_rejected job _ Hrej) as [Hthrown Hw].
    split; [done|]. apply live_timers_none. intros h c Hh Hid.
    destruct (running c) eqn:Hr; [|done].
    destruct (createPrompt_running job _ h c Hok' Hh Hr) as [(Hacc & _)|[_ Hne]];
      [congruence | done].
Qed.

Lemma edit_tenant_timezone_next_registration_witness :
  timers_sound shared ∧
  threads_retrieve "thread_1" shared = Returned "4915112345" ∧
  is_Some (select_timezone (db shared) "4915112345") ∧
  zones shared "Asia/Tokyo" = true ∧ pattern_accepted morning = true ∧
  fst (createPrompt (Some morning)
         (snd (edit_tenant (mkEditTenantArgs None (Some "Asia/Tokyo"))
                 "thread_1" shared))) = Returned () ∧
  (∃ h,
    cronJobs (snd (createPrompt (Some morning)
                     (snd (edit_tenant (mkEditTenantArgs None (Some "Asia/Tokyo"))
                             "thread_1" shared)))) !! 7 = Some h ∧
    timers (snd (createPrompt (Some morning)
                   (snd (edit_tenant (mkEditTenantArgs None (Some "Asia/Tokyo"))
                           "thread_1" shared)))) !! h
      = Some (running_timer morning (Some "Asia/Tokyo"))) ∧
  zones shared "Mars/Olympus" = false ∧
  (∃ e, fst (createPrompt (Some morning)
               (snd (edit_tenant (mkEditTenantArgs None (Some "Mars/Olympus"))
                       "thread_1" shared))) = Thrown e) ∧
  live_timers (snd (createPrompt (Some morning)
                      (snd (edit_tenant (mkEditTenantArgs None (Some "Mars/Olympus"))
                              "thread_1" shared)))) 7 = [].
Proof.
  pose proof (timers_ok_sound _ (schedule_timers_ok _ shared_schedule_ok)) as Hok.
  destruct (edit_tenant_timezone_next_registration
              (mkEditTenantArgs None (Some "Asia/Tokyo")) "thread_1" "4915112345"
              "Asia/Tokyo" shared morning Hok eq_refl (mk_is_Some _ _ eq_refl)
              eq_refl eq_refl) as (_ & Haccepted & _).
  destruct (edit_tenant_timezone_next_registration
              (mkEditTenantArgs None (Some "Mars/Olympus")) "thread_1" "4915112345"
              "Mars/Olympus" shared morning Hok eq_refl (mk_is_Some _ _ eq_refl)
              eq_refl eq_refl) as (_ & _ & Hrejected).
  split; [exact Hok|]. split; [reflexivity|]. split; [by eexists|].
  split; [reflexivity|]. split; [reflexivity|].
  destruct (Haccepted eq_refl eq_refl) as [Hret Htimer].
  split; [exact Hret|]. split; [exact Htimer|]. split; [reflexivity|].
  exact (Hrejected eq_refl).
Defined.

(** X11. [retrieve_tenant] after [edit_tenant], from the same thread, returns the
    row of the tenant with the fields that were given replaced and the
    others kept, also when [edit_tenant] threw for want of a cached agent. *)
Theorem retrieve_tenant_after_edit
    (args : EditTenantArgs) (threadId tenant : string) (w : World) (t : Tenant) :
  threads_retrieve threadId w = Returned tenant →
  select_tenant (db w) tenant = Some t →
  fst (retrieve_tenant threadId (snd (edit_tenant args threadId w)))
    = Returned (Some (mkTenant (tenant_number t)
                        (COALESCE (edit_tenant_system args) (tenant_system t))
                        (COALESCE (edit_tenant_timezone args) (tenant_timezone t)))).
Proof.
  intros Hthread Ht.
  destruct (edit_tenant_fields args threadId tenant w Hthread)
    as (Hdb & _ & _ & _ & _ & Hapi).
  unfold retrieve_tenant, threads_retrieve in *. rewrite Hapi.
  destruct (api_threads (client w) !! threadId) as [x|]; [|done].
  injection Hthread as ->. simpl.
  by rewrite Hdb, update_tenants_row, Ht.
Qed.

Lemma retrieve_tenant_after_edit_witness :
  threads_retrieve "thread_1" shared = Returned "4915112345" ∧
  select_tenant (db shared) "4915112345" = Some berlin ∧
  fst (retrieve_tenant "thread_1"
         (snd (edit_tenant (mkEditTenantArgs None (Some "Asia/Tokyo"))
                 "thread_1" shared)))
    = Returned (Some (mkTenant "4915112345" "Antworte kurz." "Asia/Tokyo")).
Proof.
  split; [reflexivity|]. split; [reflexivity|].
  exact (retrieve_tenant_after_edit (mkEditTenantArgs None (Some "Asia/Tokyo"))
           "thread_1" "4915112345" shared berlin eq_refl eq_refl).
Defined.

Lemma entries_without (t : string) (i : Z) (l : list Job) :
  entry_of <$> filter (λ j, job_tenant j = t) (filter (λ j, ¬ owned_by t i j) l) =
  filter (λ e, entry_id e ≠ i) (entry_of <$> filter (λ j, job_tenant j = t) l).
Proof.
  induction l as [|j l IH]; [done|].
  rewrite !filter_cons.
  destruct (decide (job_tenant j = t)) as [Hjt|Hjt];
    destruct (decide (job_id j = i)) as [Hji|Hji].
  - rewrite decide_False by (intros Hno; apply Hno; unfold owned_by; done).
    rewrite fmap_cons, filter_cons. simpl.
    by rewrite decide_False by (intros Hno; by apply Hno).
  - rewrite decide_True by (by intros [_ ?]).
    rewrite filter_cons, decide_True by done.
    rewrite !fmap_cons, filter_cons. simpl.
    rewrite decide_True by done. by rewrite IH.
  - rewrite decide_True by (by intros [? _]).
    by rewrite filter_cons, decide_False.
  - rewrite decide_True by (by intros [? _]).
    by rewrite filter_cons, decide_False.
Qed.

(** X8. [retrieve_prompts] after [delete_prompt], from the same thread, lists
    what it listed before without the entries of the deleted id. *)
Theorem retrieve_prompts_after_delete
    (args : DeletePromptArgs) (threadId tenant : string) (w : World) :
  threads_retrieve threadId w = Returned tenant →
  fst (retrieve_prompts threadId (snd (delete_prompt args threadId w)))
    = Returned (filter (λ e, entry_id e ≠ delete_prompt_id args)
                  (select_prompts (db w) tenant)).
Proof.
  intros Hthread.
  destruct (delete_prompt_fields args threadId tenant w Hthread)
    as (_ & Hdb & _ & _ & _ & _ & Hcl & _).
  unfold retrieve_prompts, threads_retrieve in *. rewrite Hcl, Hthread. simpl.
  f_equal. unfold select_prompts. rewrite Hdb. simpl. apply entries_without.
Qed.

Lemma retrieve_prompts_after_delete_witness :
  threads_retrieve "thread_1" shared = Returned "4915112345" ∧
  fst (retrieve_prompts "thread_1" shared)
    = Returned [mkPromptEntry 7 "Good morning" 8 30] ∧
  fst (retrieve_prompts "thread_1"
         (snd (delete_prompt (mkDeletePromptArgs 7) "thread_1" shared)))
    = Returned (filter (λ e, entry_id e ≠ 7) (select_prompts (db shared) "4915112345")).
Proof.
  split; [reflexivity|]. split; [reflexivity|].
  exact (retrieve_prompts_after_delete (mkDeletePromptArgs 7) "thread_1" "4915112345"
           shared eq_refl).
Defined.

(** ** The tool descriptors of the registry *)

Lemma assign_elem {A} (k : string) (v : A) (o : list (string * A)) (k' : string) (v' : A) :
  NoDup (fst <$> o) →
  (k', v') ∈ assign k v o ↔ (k' = k ∧ v' = v) ∨ (k' ≠ k ∧ (k', v') ∈ o).
Proof.
  induction o as [|[k0 v0] o IH]; intros Hnd; simpl.
  - rewrite list_elem_of_singleton. split.
    + intros [= -> ->]. by left.
    + intros [[-> ->]|[_ Hin]]; [done | by apply elem_of_nil in Hin].
  - rewrite fmap_cons in Hnd. apply NoDup_cons in Hnd as [Hk0 Hnd].
    destruct (String.eqb_spec k0 k) as [->|Hne].
    + rewrite !elem_of_cons. split.
      * intros [[= -> ->]|Hin]; [by left|]. right. split; [|by right].
        intros ->. apply Hk0. by apply (list_elem_of_fmap_2 fst o (k, v')).
      * intros [[-> ->]|[Hne [[= -> ->]|Hin]]]; [by left | done | by right].
    + rewrite !elem_of_cons, (IH Hnd). split.
      * intros [[= -> ->]|[[-> ->]|[Hne' Hin]]].
        -- right. split; [done | by left].
        -- by left.
        -- right. split; [done | by right].
      * intros [[-> ->]|[Hne' [[= -> ->]|Hin]]].
        -- right. by left.
        -- by left.
        -- right. right. by split.
Qed.

Lemma assign_keys {A} (k : string) (v : A) (o : list (string * A)) (k' : string) :
  k' ∈ fst <$> assign k v o ↔ k' = k ∨ k' ∈ fst <$> o.
Proof.
  induction o as [|[k0 v0] o IH]; simpl.
  - rewrite list_elem_of_singleton. split; [by left|].
    intros [->|Hin]; [done | by apply elem_of_nil in Hin].
  - destruct (String.eqb_spec k0 k) as [->|Hne]; rewrite !fmap_cons, !elem_of_cons; simpl.
    + split; [intros [->|Hin]; auto | intros [->|[->|Hin]]; auto].
    + rewrite IH. split; [intros [->|[->|Hin]]; auto | intros [->|[->|Hin]]; auto].
Qed.

Lemma assign_NoDup {A} (k : string) (v : A) (o : list (string * A)) :
  NoDup (fst <$> o) → NoDup (fst <$> assign k v o).
Proof.
  induction o as [|[k0 v0] o IH]; intros Hnd; simpl.
  - apply NoDup_singleton.
  - rewrite fmap_cons in Hnd. apply NoDup_cons in Hnd as [Hk0 Hnd].
    destruct (String.eqb_spec k0 k) as [->|Hne]; rewrite fmap_cons; simpl.
    + by apply NoDup_cons.
    + apply NoDup_cons. split; [|by apply IH].
      rewrite assign_keys. intros [->|Hin]; done.
Qed.

(** What holds of a registry that was built by [registerFunction] alone. *)
Lemma registerFunctions_tools
    (proto : gmap string Handler → string → option Handler) (rs : list Registration) :
  NoDup (fst <$> tools (registerFunctions rs (no_functions proto))) ∧
  (∀ k t, (k, t) ∈ tools (registerFunctions rs (no_functions proto)) → tool_name t = k) ∧
  (∀ name, is_Some (functions (registerFunctions rs (no_functions proto)) !! name) ↔
           name ∈ fst <$> tools (registerFunctions rs (no_functions proto))).
Proof.
  induction rs as [|r rs IH] using rev_ind.
  - split; [apply NoDup_nil_2|]. split.
    + intros k t Hin. by apply elem_of_nil in Hin.
    + intros name. simpl. rewrite lookup_empty. split; [by intros [? ?]|].
      intros Hin. by apply elem_of_nil in Hin.
  - destruct IH as (Hnd & Hnames & Hdom).
    rewrite registerFunctions_snoc. unfold registerFunction. simpl.
    split; [by apply assign_NoDup|]. split.
    + intros k t [[-> ->]|[_ Hin]]%assign_elem; [done | by apply Hnames | done].
    + intros name. rewrite assign_keys.
      destruct (decide (reg_name r = name)) as [<-|Hne].
      * rewrite lookup_insert_eq. split; [by left | by eexists].
      * rewrite lookup_insert_ne by done. rewrite Hdom. split; [by right|].
        intros [->|Hin]; done.
Qed.

Lemma registerFunctions_descriptor
    (proto : gmap string Handler → string → option Handler)
    (rs : list Registration) (name : string) (r : Registration) :
  last (filter (λ x, reg_name x = name) rs) = Some r →
  (name, mkAssistantTool name (reg_description r) (reg_parameters r))
    ∈ tools (registerFunctions rs (no_functions proto)).
Proof.
  induction rs as [|x rs IH] using rev_ind; [done|].
  rewrite filter_app, registerFunctions_snoc, filter_cons, filter_nil.
  destruct (registerFunctions_tools proto rs) as (Hnd & _).
  unfold registerFunction. simpl.
  destruct (decide (reg_name x = name)) as [<-|Hne].
  - rewrite last_snoc. intros [= ->]. apply assign_elem; [done|]. by left.
  - rewrite app_nil_r. intros Hlast. apply assign_elem; [done|].
    right. split; [done | by apply IH].
Qed.

(** X15. An agent is created with exactly one tool descriptor for every
    function name that is registered at that time, and with none for any
    other name. *)
Theorem createAssistant_one_tool_per_function
    (proto : gmap string Handler → string → option Handler)
    (rs : list Registration) (model instr : string) (w : World) :
  NoDup (tool_name <$>
           assistant_tools (fst (createAssistant (registerFunctions rs (no_functions proto))
                                   model instr w))) ∧
  ∀ name,
    name ∈ tool_name <$>
             assistant_tools (fst (createAssistant (registerFunctions rs (no_functions proto))
                                     model instr w)) ↔
    is_Some (functions (registerFunctions rs (no_functions proto)) !! name).
Proof.
  destruct (registerFunctions_tools proto rs) as (Hnd & Hnames & Hdom).
  assert (Hkeys : tool_name <$> (snd <$> tools (registerFunctions rs (no_functions proto))) =
                  fst <$> tools (registerFunctions rs (no_functions proto))).
  { rewrite <- list_fmap_compose. apply list_fmap_ext.
    intros i [k t] Hi. simpl. apply Hnames. by eapply list_elem_of_lookup_2. }
  unfold createAssistant, assistants_create. simpl. rewrite Hkeys.
  split; [done|]. intros name. by rewrite Hdom.
Qed.

(** X16. The descriptor an agent is created with for a function name is the one
    of the last registration of the name: its description and its schema. *)
Theorem createAssistant_last_descriptor
    (proto : gmap string Handler → string → option Handler)
    (rs : list Registration) (name : string) (r : Registration)
    (model instr : string) (w : World) :
  last (filter (λ x, reg_name x = name) rs) = Some r →
  ∀ t, t ∈ assistant_tools (fst (createAssistant (registerFunctions rs (no_functions proto))
                                   model instr w)) →
       tool_name t = name →
       t = mkAssistantTool name (reg_description r) (reg_parameters r).
Proof.
  intros Hlast t Ht Hname.
  destruct (registerFunctions_tools proto rs) as (Hnd & Hnames & _).
  pose proof (registerFunctions_descriptor proto rs name r Hlast) as Hin.
  unfold createAssistant, assistants_create in Ht. simpl in Ht.
  apply list_elem_of_fmap in Ht as ([k t'] & -> & Ht). simpl in *.
  pose proof (Hnames k t' Ht) as Hk. rewrite Hname in Hk. subst k.
  apply list_elem_of_lookup in Ht as [i Hi].
  apply list_elem_of_lookup in Hin as [i' Hi'].
  assert (i = i').
  { apply (NoDup_lookup _ i i' name Hnd); by rewrite list_lookup_fmap, ?Hi, ?Hi'. }
  subst i'. congruence.
Qed.

Lemma createAssistant_last_descriptor_witness :
  last (filter (λ x, reg_name x = "model_infos")
          (registered_twice ++
           [mkRegistration "model_infos" "Says who made this." [] model_infos]))
    = Some (mkRegistration "model_infos" "Says who made this." [] model_infos) ∧
  ∀ t, t ∈ assistant_tools
             (fst (createAssistant
                     (registerFunctions
                        (registered_twice ++
                         [mkRegistration "model_infos" "Says who made this." []
                            model_infos]) (no_functions Object_prototype))
                     "gpt-4o" "Antworte kurz." started)) →
       tool_name t = "model_infos" →
       t = mkAssistantTool "model_infos" "Says who made this." [].
Proof.
  split; [reflexivity|].
  exact (createAssistant_last_descriptor Object_prototype
           (registered_twice ++
            [mkRegistration "model_infos" "Says who made this." [] model_infos])
           "model_infos"
           (mkRegistration "model_infos" "Says who made this." [] model_infos)
           "gpt-4o" "Antworte kurz." started eq_refl).
Defined.

(** ** The agent and thread caches *)

(** X13. Once [getAssistant] has returned an agent for a tenant, the agent
    is in the cache, and a later call returns that agent and changes
    nothing, whatever has been registered since, in every state in which
    the cache still holds the agent and the store still holds instructions
    for the tenant that are not empty; [edit_prompt], [delete_prompt] and
    [edit_tenant] leave the cache as it is.  An agent that had to be
    created was created with the instructions of the tenant and the tools
    registered at that time. *)
Theorem getAssistant_caches
    (reg reg' : Registry) (tenant : string) (w w1 : World) (a : Assistant) :
  getAssistant reg tenant w = (Returned a, w1) →
  assistants w1 !! tenant = Some a ∧
  getAssistant reg' tenant w1 = (Returned a, w1) ∧
  (∀ w2 c system,
     assistants w2 !! tenant = Some a →
     select_system (db w2) tenant = Some (String c system) →
     getAssistant reg' tenant w2 = (Returned a, w2)) ∧
  (∀ w2 threadId edit del tn,
     assistants (snd (edit_prompt edit threadId w2)) = assistants w2 ∧
     assistants (snd (delete_prompt del threadId w2)) = assistants w2 ∧
     assistants (snd (edit_tenant tn threadId w2)) = assistants w2) ∧
  (assistants w !! tenant = None →
   ∃ system,
     select_system (db w) tenant = Some system ∧
     a = mkAssistant ("asst_" +:+ pretty (api_next (client w))) "gpt-4o" system
                     (snd <$> tools reg) ∧
     api_assistants (client w1) !! assistant_id a = Some a).
Proof.
  intros Hcall.
  assert (Hlater : ∀ w2 c system,
     assistants w2 !! tenant = Some a →
     select_system (db w2) tenant = Some (String c system) →
     getAssistant reg' tenant w2 = (Returned a, w2)).
  { intros w2 c system Ha Hsys. unfold getAssistant. by rewrite Hsys, Ha. }
  assert (Hkept : ∀ w2 threadId edit del tn,
     assistants (snd (edit_prompt edit threadId w2)) = assistants w2 ∧
     assistants (snd (delete_prompt del threadId w2)) = assistants w2 ∧
     assistants (snd (edit_tenant tn threadId w2)) = assistants w2).
  { intros w2 threadId edit del tn.
    destruct (threads_retrieve threadId w2) as [t|e] eqn:Hthread.
    - split; [|split].
      + rewrite (edit_prompt_state edit threadId t w2 Hthread).
        case_bool_decide; [|done].
        by destruct (createPrompt_keeps
                       (select_job (snd (update_jobs (edit_prompt_prompt edit)
                                           (edit_prompt_hour edit)
                                           (edit_prompt_minute edit) t
                                           (edit_prompt_id edit) (db w2)))
                                   (edit_prompt_id edit))
                       (set_db (snd (update_jobs (edit_prompt_prompt edit)
                                       (edit_prompt_hour edit)
                                       (edit_prompt_minute edit) t
                                       (edit_prompt_id edit) (db w2))) w2))
          as (_ & -> & _).
      + by destruct (delete_prompt_fields del threadId t w2 Hthread)
          as (_ & _ & _ & _ & -> & _).
      + by destruct (edit_tenant_fields tn threadId t w2 Hthread)
          as (_ & _ & _ & -> & _).
    - unfold edit_prompt, delete_prompt, edit_tenant. by rewrite Hthread. }
  revert Hcall. unfold getAssistant.
  destruct (select_system (db w) tenant) as [[|c system]|] eqn:Hsys; [done| |done].
  destruct (assistants w !! tenant) as [a0|] eqn:Ha.
  - intros [= -> ->]. split; [done|]. split; [by apply (Hlater w1 c system)|].
    split; [exact Hlater|]. split; [exact Hkept|]. done.
  - unfold createAssistant, assistants_create. simpl. intros [= <- <-].
    split; [simpl; apply lookup_insert_eq|]. split.
    { apply (Hlater _ c system); [simpl; apply lookup_insert_eq | done]. }
    split; [exact Hlater|]. split; [exact Hkept|].
    intros _. eexists. split; [done|]. split; [done|]. simpl. apply lookup_insert_eq.
Qed.

Lemma getAssistant_caches_witness :
  getAssistant first_registration "4915112345" started
    = (Returned (mkAssistant "asst_0" "gpt-4o" "Antworte kurz."
                   (snd <$> tools first_registration)), with_agent) ∧
  assistants with_agent !! "4915112345"
    = Some (mkAssistant "asst_0" "gpt-4o" "Antworte kurz."
              (snd <$> tools first_registration)) ∧
  getAssistant two_tools "4915112345" with_agent
    = (Returned (mkAssistant "asst_0" "gpt-4o" "Antworte kurz."
                   (snd <$> tools first_registration)), with_agent) ∧
  getAssistant two_tools "4915112345"
      (snd (edit_tenant (mkEditTenantArgs (Some "Antworte lang.") None)
              "thread_1" with_agent))
    = (Returned (mkAssistant "asst_0" "gpt-4o" "Antworte kurz."
                   (snd <$> tools first_registration)),
       snd (edit_tenant (mkEditTenantArgs (Some "Antworte lang.") None)
              "thread_1" with_agent)) ∧
  (assistants started !! "4915112345" = None →
   ∃ system,
     select_system (db started) "4915112345" = Some system ∧
     mkAssistant "asst_0" "gpt-4o" "Antworte kurz." (snd <$> tools first_registration)
       = mkAssistant ("asst_" +:+ pretty (api_next (client started))) "gpt-4o" system
                     (snd <$> tools first_registration) ∧
     api_assistants (client with_agent) !! "asst_0"
       = Some (mkAssistant "asst_0" "gpt-4o" "Antworte kurz."
                 (snd <$> tools first_registration))).
Proof.
  destruct (getAssistant_caches first_registration two_tools "4915112345" started
              with_agent
              (mkAssistant "asst_0" "gpt-4o" "Antworte kurz."
                 (snd <$> tools first_registration)) eq_refl)
    as (Hcached & Hsecond & Hlater & _ & Hcreated).
  split; [reflexivity|]. split; [exact Hcached|]. split; [exact Hsecond|].
  split; [|exact Hcreated].
  exact (Hlater (snd (edit_tenant (mkEditTenantArgs (Some "Antworte lang.") None)
                        "thread_1" with_agent))
                _ _ eq_refl eq_refl).
Defined.

(** X14. [getThread] gives a tenant one thread: the id it returns is cached, a
    second call returns it again and changes nothing, and a thread that had
    to be created is known to the service with the tenant in its metadata
    and no messages. *)
Theorem getThread_caches (tenant : string) (w : World) :
  threads (snd (getThread tenant w)) !! tenant = Some (fst (getThread tenant w)) ∧
  getThread tenant (snd (getThread tenant w)) = getThread tenant w ∧
  (threads w !! tenant = None →
   threads_retrieve (fst (getThread tenant w)) (snd (getThread tenant w))
     = Returned tenant ∧
   messages_list (fst (getThread tenant w)) (snd (getThread tenant w)) = Returned [] ∧
   db (snd (getThread tenant w)) = db w ∧
   assistants (snd (getThread tenant w)) = assistants w ∧
   timers (snd (getThread tenant w)) = timers w).
Proof.
  unfold getThread. destruct (threads w !! tenant) as [id|] eqn:Hid.
  - simpl. by rewrite Hid.
  - unfold createThread, threads_retrieve, messages_list. simpl.
    rewrite !lookup_insert_eq. done.
Qed.

Lemma getThread_caches_witness :
  threads started !! "4915112345" = None ∧
  fst (getThread "4915112345" started) = "thread_0" ∧
  threads (snd (getThread "4915112345" started)) !! "4915112345" = Some "thread_0" ∧
  getThread "4915112345" (snd (getThread "4915112345" started))
    = getThread "4915112345" started ∧
  threads_retrieve "thread_0" (snd (getThread "4915112345" started))
    = Returned "4915112345".
Proof.
  destruct (getThread_caches "4915112345" started) as (Hc & Hagain & Hnew).
  destruct (Hnew eq_refl) as (Hr & _).
  split; [reflexivity|]. split; [reflexivity|]. split; [exact Hc|].
  split; [exact Hagain | exact Hr].
Defined.

(** ** Streams of events *)

Section Streams.

Variable JSON_parse : string → option json.
Variable JSON_stringify : json → option string.
Variable submitToolOutputsStream :
  OpenAI → string → string → list ToolOutput → AssistantStream * OpenAI.
Variable runs_stream : OpenAI → string → string → AssistantStream * OpenAI.

Lemma emit_all_settled (emit : Listener) (v : string) :
  (∀ event w p' w', emit event (Some v) w = Some (p', w') → p' = Some v) →
  ∀ events w p' w', emit_all emit events (Some v) w = Some (p', w') → p' = Some v.
Proof.
  intros Hemit events. induction events as [|event rest IH]; intros w p' w'; simpl.
  - by intros [= <- _].
  - destruct (emit event (Some v) w) as [[p1 w1]|] eqn:He; [|done].
    apply Hemit in He as ->. apply IH.
Qed.

(** X17. The caller's result is settled at most once: whatever an event makes
    the processor do, tool rounds included, a result that is settled when
    the event arrives is the result afterwards. *)
Theorem onEvent_keeps_settled_result
    (fuel : nat) (reg : Registry) (event : AssistantStreamEvent)
    (v : string) (w : World) (p' : Promise) (w' : World) :
  onEvent JSON_parse JSON_stringify submitToolOutputsStream fuel reg event (Some v) w
    = Some (p', w') →
  p' = Some v.
Proof.
  revert event w p' w'. induction fuel as [|fuel IH]; intros event w p' w'; [done|].
  simpl. destruct event; try (by intros [= <- _]).
  - unfold handleRequiresAction.
    destruct (callTools JSON_parse JSON_stringify reg (thread_id data)
                (tool_calls data) w) as [results w1].
    destruct (Promise_all results) as [outs|e]; [|by intros [= <- _]].
    unfold submitToolOutputs.
    destruct (submitToolOutputsStream _ _ _ _) as [stream api].
    destruct (emit_all _ _ _ _) as [[p1 w2]|] eqn:He; [|done].
    intros [= <- _]. by apply (emit_all_settled _ v IH) in He.
  - destruct (messages_list (thread_id data) w) as [ms|e]; [|by intros [= <- _]].
    destruct (answer_of ms) as [[value|type]|]; by intros [= <- _].
Qed.

Lemma emit_all_unhandled (fuel : nat) (reg : Registry)
    (events : list AssistantStreamEvent) (p : Promise) (w : World) :
  Forall (λ event, unhandled event = true) events →
  emit_all (onEvent JSON_parse JSON_stringify submitToolOutputsStream (S fuel) reg)
           events p w = Some (p, w).
Proof.
  induction 1 as [|event rest Hevent _ IH]; [done|].
  simpl. by destruct event; try done; rewrite IH.
Qed.

Lemma emit_all_app (emit : Listener) (events rest : list AssistantStreamEvent)
    (p : Promise) (w : World) :
  emit_all emit (events ++ rest) p w =
  match emit_all emit events p w with
  | Some (p1, w1) => emit_all emit rest p1 w1
  | None => None
  end.
Proof.
  revert p w. induction events as [|event events IH]; intros p w; [done|].
  simpl. destruct (emit event p w) as [[p1 w1]|]; [apply IH | done].
Qed.

Lemma onEvent_completed_text (fuel : nat) (reg : Registry) (data : Run)
    (p : Promise) (w : World) (messages : list Message) (text : string) :
  messages_list (thread_id data) w = Returned messages →
  answer_of messages = Some (TextContentBlock text) →
  onEvent JSON_parse JSON_stringify submitToolOutputsStream (S fuel) reg
          (thread_run_completed data) p w = Some (resolve text p, w).
Proof. intros Hlist Hanswer. simpl. by rewrite Hlist, Hanswer. Qed.

(** X20. [createMessage] fails before anything is asked of the model when the
    tenant has no row or empty instructions, leaving the process state as
    it is, and when the service does not know the thread, in which case the
    agent of the tenant has been looked up or created and stays cached. *)
Theorem createMessage_fails_early
    (fuel : nat) (reg : Registry) (tenant threadId content_ : string) (w : World) :
  (select_system (db w) tenant = None ∨ select_system (db w) tenant = Some EmptyString →
   createMessage JSON_parse JSON_stringify submitToolOutputsStream runs_stream
                 fuel reg tenant threadId content_ w
     = Some (Thrown (Error "Tenant not found"), w)) ∧
  (∀ a w1,
     getAssistant reg tenant w = (Returned a, w1) →
     api_messages (client w1) !! threadId = None →
     createMessage JSON_parse JSON_stringify submitToolOutputsStream runs_stream
                   fuel reg tenant threadId content_ w
       = Some (Thrown (APIError "No thread found"), w1) ∧
     assistants w1 !! tenant = Some a).
Proof.
  split.
  - intros Hsys. unfold createMessage, getAssistant.
    by destruct Hsys as [->| ->].
  - intros a w1 Ha Hthread. split.
    + unfold createMessage, messages_create. by rewrite Ha, Hthread.
    + unfold getAssistant in Ha.
      destruct (select_system (db w) tenant) as [[|c system]|]; [done| |done].
      destruct (assistants w !! tenant) as [a0|] eqn:Ha0.
      * by injection Ha as -> ->.
      * unfold createAssistant, assistants_create in Ha. simpl in Ha.
        injection Ha as <- <-. simpl. by rewrite lookup_insert_eq.
Qed.

(** X18. A run without tool use that completes with a text of the assistant
    first on the thread: [createMessage] resolves with that text, and the
    process is as [getAssistant] left it but for the state of the service. *)
Theorem createMessage_answers
    (fuel : nat) (reg : Registry) (tenant threadId content_ : string) (w w1 : World)
    (a : Assistant) (api api1 : OpenAI) (before after : list AssistantStreamEvent)
    (data : Run) (err : option Exn) (messages : list Message) (text : string) :
  getAssistant reg tenant w = (Returned a, w1) →
  messages_create threadId (mkMessage "user" [TextContentBlock content_]) (client w1)
    = Some api →
  runs_stream api threadId (assistant_id a)
    = (mkAssistantStream (before ++ thread_run_completed data :: after) err, api1) →
  Forall (λ event, unhandled event = true) before →
  Forall (λ event, unhandled event = true) after →
  api_messages api1 !! thread_id data = Some messages →
  answer_of messages = Some (TextContentBlock text) →
  createMessage JSON_parse JSON_stringify submitToolOutputsStream runs_stream
                (S fuel) reg tenant threadId content_ w
    = Some (Returned (Some text), set_client api1 w1).
Proof.
  intros Ha Hcreate Hstream Hbefore Hafter Hmessages Hanswer.
  unfold createMessage. rewrite Ha, Hcreate, Hstream. cbn [stream_events].
  rewrite emit_all_app, (emit_all_unhandled fuel) by done. cbn [emit_all].
  rewrite (onEvent_completed_text fuel reg data None (set_client api1 w1) messages text)
    by (unfold messages_list; cbn [client set_client]; by rewrite ?Hmessages).
  cbn [resolve]. by rewrite (emit_all_unhandled fuel).
Qed.

(** X19. A run whose stream has none of the three events the processor
    handles (one that ends cancelled, expired or incomplete, say) leaves
    the promise of [createMessage] pending for good. *)
Theorem createMessage_pending
    (fuel : nat) (reg : Registry) (tenant threadId content_ : string) (w w1 : World)
    (a : Assistant) (api api1 : OpenAI) (events : list AssistantStreamEvent)
    (err : option Exn) :
  getAssistant reg tenant w = (Returned a, w1) →
  messages_create threadId (mkMessage "user" [TextContentBlock content_]) (client w1)
    = Some api →
  runs_stream api threadId (assistant_id a) = (mkAssistantStream events err, api1) →
  Forall (λ event, unhandled event = true) events →
  createMessage JSON_parse JSON_stringify submitToolOutputsStream runs_stream
                (S fuel) reg tenant threadId content_ w
    = Some (Returned None, set_client api1 w1).
Proof.
  intros Ha Hcreate Hstream Hevents.
  unfold createMessage. rewrite Ha, Hcreate, Hstream. cbn [stream_events].
  by rewrite (emit_all_unhandled fuel).
Qed.

End Streams.

Lemma onEvent_keeps_settled_result_witness :
  ∃ p' w',
    onEvent parse_known stringify (answering "Fertig.") 3 searching
            (thread_run_requires_action two_calls) (Some "Schon da.") started
      = Some (p', w') ∧
    api_submitted (client w') ≠ [] ∧
    p' = Some "Schon da.".
Proof.
  destruct (onEvent parse_known stringify (answering "Fertig.") 3 searching
              (thread_run_requires_action two_calls) (Some "Schon da.") started)
    as [[p' w']|] eqn:He.
  - exists p', w'. split; [reflexivity|]. split.
    + vm_compute in He. injection He as _ <-. discriminate.
    + exact (onEvent_keeps_settled_result parse_known stringify (answering "Fertig.")
               3 searching (thread_run_requires_action two_calls) "Schon da."
               started p' w' He).
  - vm_compute in He. discriminate.
Defined.

Lemma createMessage_fails_early_witness :
  select_system (db started) "000" = None ∧
  createMessage parse_known stringify (answering "Fertig.") (answers_directly "Hallo!")
                1 first_registration "000" "thread_1" "Hallo" started
    = Some (Thrown (Error "Tenant not found"), started) ∧
  getAssistant first_registration "4915112345" started
    = (Returned (mkAssistant "asst_0" "gpt-4o" "Antworte kurz."
                   (snd <$> tools first_registration)), with_agent) ∧
  api_messages (client with_agent) !! "thread_9" = None ∧
  createMessage parse_known stringify (answering "Fertig.") (answers_directly "Hallo!")
                1 first_registration "4915112345" "thread_9" "Hallo" started
    = Some (Thrown (APIError "No thread found"), with_agent).
Proof.
  destruct (createMessage_fails_early parse_known stringify (answering "Fertig.")
              (answers_directly "Hallo!") 1 first_registration "000" "thread_1"
              "Hallo" started) as [Hunknown _].
  destruct (createMessage_fails_early parse_known stringify (answering "Fertig.")
              (answers_directly "Hallo!") 1 first_registration "4915112345" "thread_9"
              "Hallo" started) as [_ Hthread].
  split; [reflexivity|]. split; [exact (Hunknown (or_introl eq_refl))|].
  split; [reflexivity|]. split; [reflexivity|].
  exact (proj1 (Hthread _ with_agent eq_refl eq_refl)).
Defined.

Lemma createMessage_answers_witness :
  getAssistant first_registration "4915112345" started
    = (Returned (mkAssistant "asst_0" "gpt-4o" "Antworte kurz."
                   (snd <$> tools first_registration)), with_agent) ∧
  messages_create "thread_1" (mkMessage "user" [TextContentBlock "Hallo"])
                  (client with_agent) = Some asked_api ∧
  api_messages answered_api !! "thread_1"
    = Some [mkMessage "assistant" [TextContentBlock "Hallo!"];
            mkMessage "user" [TextContentBlock "Hallo"]] ∧
  createMessage parse_known stringify (answering "Fertig.") (answers_directly "Hallo!")
                1 first_registration "4915112345" "thread_1" "Hallo" started
    = Some (Returned (Some "Hallo!"), set_client answered_api with_agent).
Proof.
  split; [reflexivity|]. split; [reflexivity|]. split; [reflexivity|].
  refine (createMessage_answers parse_known stringify (answering "Fertig.")
            (answers_directly "Hallo!") 0 first_registration "4915112345" "thread_1"
            "Hallo" started with_agent
            (mkAssistant "asst_0" "gpt-4o" "Antworte kurz."
               (snd <$> tools first_registration))
            asked_api answered_api
            [thread_run_created (mkRun "run_1" "thread_1" [] None);
             thread_run_in_progress (mkRun "run_1" "thread_1" [] None)]
            [] (mkRun "run_1" "thread_1" [] None) None
            [mkMessage "assistant" [TextContentBlock "Hallo!"];
             mkMessage "user" [TextContentBlock "Hallo"]]
            "Hallo!" eq_refl eq_refl eq_refl _ _ eq_refl eq_refl).
  - repeat constructor.
  - constructor.
Defined.

Lemma createMessage_pending_witness :
  getAssistant first_registration "4915112345" started
    = (Returned (mkAssistant "asst_0" "gpt-4o" "Antworte kurz."
                   (snd <$> tools first_registration)), with_agent) ∧
  messages_create "thread_1" (mkMessage "user" [TextContentBlock "Hallo"])
                  (client with_agent) = Some asked_api ∧
  createMessage parse_known stringify (answering "Fertig.") gets_cancelled
                1 first_registration "4915112345" "thread_1" "Hallo" started
    = Some (Returned None, set_client asked_api with_agent).
Proof.
  split; [reflexivity|]. split; [reflexivity|].
  refine (createMessage_pending parse_known stringify (answering "Fertig.")
            gets_cancelled 0 first_registration "4915112345" "thread_1" "Hallo"
            started with_agent
            (mkAssistant "asst_0" "gpt-4o" "Antworte kurz."
               (snd <$> tools first_registration))
            asked_api asked_api
            [thread_run_created (mkRun "run_1" "thread_1" [] None);
             thread_run_cancelling (mkRun "run_1" "thread_1" [] None);
             thread_run_cancelled (mkRun "run_1" "thread_1" [] None)]
            None eq_refl eq_refl eq_refl _).
  repeat constructor.
Defined.

(** ** The web search tool *)

Lemma json_field_assign_eq (k : string) (v : json) (o : list (string * json)) :
  json_field k (assign k v o) = v.
Proof.
  unfold json_field. induction o as [|[k0 v0] o IH]; simpl.
  - by rewrite String.eqb_refl.
  - destruct (String.eqb_spec k0 k) as [->|Hne]; simpl.
    + by rewrite String.eqb_refl.
    + apply String.eqb_neq in Hne. by rewrite Hne.
Qed.

Lemma json_field_assign_ne (k k' : string) (v : json) (o : list (string * json)) :
  k ≠ k' → json_field k' (assign k v o) = json_field k' o.
Proof.
  intros Hne. unfold json_field. induction o as [|[k0 v0] o IH]; simpl.
  - apply String.eqb_neq in Hne. by rewrite Hne.
  - destruct (String.eqb_spec k0 k) as [->|Hne0]; simpl.
    + apply String.eqb_neq in Hne. by rewrite Hne.
    + destruct (String.eqb k0 k'); [done | exact IH].
Qed.

Lemma spread_snoc {A} (a b : list (string * A)) (kv : string * A) :
  spread a (b ++ [kv]) = assign (fst kv) (snd kv) (spread a b).
Proof. unfold spread. by rewrite foldl_snoc. Qed.

Lemma json_field_spread_given (a b : list (string * json)) (k : string) (v : json) :
  NoDup (fst <$> b) → (k, v) ∈ b → json_field k (spread a b) = v.
Proof.
  induction b as [|[k0 v0] b IH] using rev_ind; intros Hnd Hin;
    [by apply elem_of_nil in Hin|].
  rewrite spread_snoc. simpl.
  rewrite fmap_app in Hnd. apply NoDup_app in Hnd as (Hnd & Hfresh & _).
  apply elem_of_app in Hin as [Hin|Hin].
  - assert (Hne : k0 ≠ k).
    { intros ->. apply (Hfresh k); [|by left].
      by apply (list_elem_of_fmap_2 fst b (k, v)). }
    rewrite json_field_assign_ne by done. by apply IH.
  - apply list_elem_of_singleton in Hin. injection Hin as -> ->.
    apply json_field_assign_eq.
Qed.

Lemma json_field_spread_default (a b : list (string * json)) (k : string) :
  k ∉ fst <$> b → json_field k (spread a b) = json_field k a.
Proof.
  induction b as [|[k0 v0] b IH] using rev_ind; intros Hk; [done|].
  rewrite spread_snoc. simpl.
  rewrite fmap_app, not_elem_of_app in Hk. destruct Hk as [Hb Hk0].
  rewrite json_field_assign_ne; [by apply IH|].
  intros ->. apply Hk0. by left.
Qed.

Lemma bing_web_search_request_eq
    (ky_get : list (string * json) → Completion (list (string * json)))
    (queryOrOpts : json) (threadId : string) (w : World) :
  bing_web_search ky_get queryOrOpts threadId w =
    (match ky_get (searchParams_of queryOrOpts) with
     | Returned response => Returned (JObj (omit response "rankingResponse"))
     | Thrown e => Thrown e
     end, w).
Proof.
  unfold bing_web_search.
  assert (Hparams :
    match queryOrOpts with
    | JStr q => spread [("mkt", JStr "de-DE")] [("q", JStr q)]
    | JObj fields => spread [("mkt", JStr "de-DE")] fields
    | JArr items => imap (λ i x, (pretty i, x)) items ++ [("mkt", JStr "de-DE")]
    | _ => [("mkt", JStr "de-DE")]
    end = searchParams_of queryOrOpts) by done.
  cbv zeta. rewrite Hparams. by destruct (ky_get (searchParams_of queryOrOpts)).
Qed.

(** X21. The request [bing_web_search] makes: a string argument is the query,
    in the German market; of an object argument every property is sent as
    it is, and the market is the German one unless the object names another. *)
Theorem bing_web_search_request
    (ky_get : list (string * json) → Completion (list (string * json)))
    (queryOrOpts : json) (threadId : string) (w : World) :
  bing_web_search ky_get queryOrOpts threadId w =
    (match ky_get (searchParams_of queryOrOpts) with
     | Returned response => Returned (JObj (omit response "rankingResponse"))
     | Thrown e => Thrown e
     end, w) ∧
  (∀ q, queryOrOpts = JStr q →
        searchParams_of queryOrOpts = [("mkt", JStr "de-DE"); ("q", JStr q)]) ∧
  (∀ fields, queryOrOpts = JObj fields → NoDup (fst <$> fields) →
     (∀ k v, (k, v) ∈ fields → json_field k (searchParams_of queryOrOpts) = v) ∧
     ("mkt" ∉ fst <$> fields →
      json_field "mkt" (searchParams_of queryOrOpts) = JStr "de-DE")).
Proof.
  split; [apply bing_web_search_request_eq|]. split.
  - by intros q ->.
  - intros fields -> Hnd. simpl. split.
    + intros k v Hin. by apply json_field_spread_given.
    + intros Hmkt. by rewrite json_field_spread_default.
Qed.

Lemma bing_web_search_request_witness :
  NoDup (fst <$> [("q", JStr "Wetter Berlin"); ("mkt", JStr "en-US")]) ∧
  json_field "q" (searchParams_of (JObj [("q", JStr "Wetter Berlin");
                                         ("mkt", JStr "en-US")]))
    = JStr "Wetter Berlin" ∧
  json_field "mkt" (searchParams_of (JObj [("q", JStr "Wetter Berlin");
                                           ("mkt", JStr "en-US")]))
    = JStr "en-US" ∧
  NoDup (fst <$> [("q", JStr "Wetter Berlin")]) ∧
  json_field "mkt" (searchParams_of (JObj [("q", JStr "Wetter Berlin")]))
    = JStr "de-DE" ∧
  searchParams_of (JStr "Wetter Berlin")
    = [("mkt", JStr "de-DE"); ("q", JStr "Wetter Berlin")].
Proof.
  assert (Hnd2 : NoDup (fst <$> [("q", JStr "Wetter Berlin"); ("mkt", JStr "en-US")])).
  { simpl. apply NoDup_cons. split; [|apply NoDup_singleton].
    intros Hin. by apply list_elem_of_singleton in Hin. }
  assert (Hnd1 : NoDup (fst <$> [("q", JStr "Wetter Berlin")])).
  { apply NoDup_singleton. }
  destruct (bing_web_search_request found
              (JObj [("q", JStr "Wetter Berlin"); ("mkt", JStr "en-US")])
              "thread_1" started) as (_ & _ & Hobj2).
  destruct (bing_web_search_request found (JObj [("q", JStr "Wetter Berlin")])
              "thread_1" started) as (_ & _ & Hobj1).
  destruct (bing_web_search_request found (JStr "Wetter Berlin")
              "thread_1" started) as (_ & Hstr & _).
  destruct (Hobj2 _ eq_refl Hnd2) as [Hgiven _].
  destruct (Hobj1 _ eq_refl Hnd1) as [_ Hdefault].
  split; [exact Hnd2|].
  split; [exact (Hgiven "q" (JStr "Wetter Berlin") (list_elem_of_here _ _))|].
  split; [exact (Hgiven "mkt" (JStr "en-US")
                   (list_elem_of_further _ _ _ (list_elem_of_here _ _)))|].
  split; [exact Hnd1|]. split.
  - apply Hdefault. simpl. intros Hin. by apply list_elem_of_singleton in Hin.
  - exact (Hstr _ eq_refl).
Defined.

(** X22. What [bing_web_search] returns: the response of the search service
    without its ranking, with every other member as it came and in the same
    order; a failed request fails the call with the same error; and in no
    case does the tool change the process state. *)
Theorem bing_web_search_result
    (ky_get : list (string * json) → Completion (list (string * json)))
    (queryOrOpts : json) (threadId : string) (w : World) :
  snd (bing_web_search ky_get queryOrOpts threadId w) = w ∧
  (∀ e, ky_get (searchParams_of queryOrOpts) = Thrown e →
        fst (bing_web_search ky_get queryOrOpts threadId w) = Thrown e) ∧
  (∀ response, ky_get (searchParams_of queryOrOpts) = Returned response →
     ∃ fields,
       fst (bing_web_search ky_get queryOrOpts threadId w) = Returned (JObj fields) ∧
       ("rankingResponse" ∉ fst <$> fields) ∧
       fields = filter (λ kv, fst kv ≠ "rankingResponse") response ∧
       ∀ k v, k ≠ "rankingResponse" → ((k, v) ∈ fields ↔ (k, v) ∈ response)).
Proof.
  rewrite bing_web_search_request_eq. cbn [fst snd]. split; [done|]. split.
  - by intros e ->.
  - intros response ->. exists (omit response "rankingResponse").
    split; [done|]. unfold omit. split; [|split; [done|]].
    + intros ((k & v) & Hk & [Hne _]%list_elem_of_filter)%list_elem_of_fmap.
      simpl in *. by subst k.
    + intros k v Hne. rewrite list_elem_of_filter. simpl. split; [by intros [_ ?] | done].
Qed.

Lemma bing_web_search_result_witness :
  snd (bing_web_search found (JStr "Wetter Berlin") "thread_1" started) = started ∧
  found (searchParams_of (JStr "Wetter Berlin"))
    = Returned [("_type", JStr "SearchResponse"); ("rankingResponse", JObj [])] ∧
  (∃ fields,
     fst (bing_web_search found (JStr "Wetter Berlin") "thread_1" started)
       = Returned (JObj fields) ∧
     ("rankingResponse" ∉ fst <$> fields) ∧
     fields = filter (λ kv, fst kv ≠ "rankingResponse")
                [("_type", JStr "SearchResponse"); ("rankingResponse", JObj [])] ∧
     ∀ k v, k ≠ "rankingResponse" →
            ((k, v) ∈ fields ↔
             (k, v) ∈ [("_type", JStr "SearchResponse"); ("rankingResponse", JObj [])])) ∧
  unreachable (searchParams_of (JStr "Wetter Berlin"))
    = Thrown (mkExn "HTTPError" "Request failed") ∧
  fst (bing_web_search unreachable (JStr "Wetter Berlin") "thread_1" started)
    = Thrown (mkExn "HTTPError" "Request failed").
Proof.
  destruct (bing_web_search_result found (JStr "Wetter Berlin") "thread_1" started)
    as (Hsame & _ & Hfound).
  destruct (bing_web_search_result unreachable (JStr "Wetter Berlin") "thread_1" started)
    as (_ & Hdown & _).
  split; [exact Hsame|]. split; [reflexivity|].
  split; [exact (Hfound _ eq_refl)|]. split; [reflexivity|].
  exact (Hdown _ eq_refl).
Defined.

(** ** Instructions that are empty *)

(** X12. After [edit_tenant] has stored empty instructions for a tenant,
    [getAssistant] fails for that tenant with "Tenant not found", although
    the tenant has a row and may have a cached agent. *)
Theorem empty_instructions_lock_out
    (reg : Registry) (args : EditTenantArgs) (threadId tenant : string) (w : World) :
  threads_retrieve threadId w = Returned tenant →
  is_Some (select_system (db w) tenant) →
  edit_tenant_system args = Some EmptyString →
  getAssistant reg tenant (snd (edit_tenant args threadId w))
    = (Thrown (Error "Tenant not found"), snd (edit_tenant args threadId w)).
Proof.
  intros Hthread [old Hold] Hempty.
  destruct (edit_tenant_fields args threadId tenant w Hthread) as (Hdb & _).
  unfold getAssistant.
  by rewrite Hdb, update_tenants_system, Hold, Hempty.
Qed.

Lemma empty_instructions_lock_out_witness :
  threads_retrieve "thread_1" with_agent = Returned "4915112345" ∧
  is_Some (select_system (db with_agent) "4915112345") ∧
  is_Some (assistants (snd (edit_tenant (mkEditTenantArgs (Some EmptyString) None)
                              "thread_1" with_agent)) !! "4915112345") ∧
  getAssistant first_registration "4915112345"
               (snd (edit_tenant (mkEditTenantArgs (Some EmptyString) None)
                       "thread_1" with_agent))
    = (Thrown (Error "Tenant not found"),
       snd (edit_tenant (mkEditTenantArgs (Some EmptyString) None)
              "thread_1" with_agent)).
Proof.
  split; [reflexivity|]. split; [by eexists|]. split; [by eexists|].
  exact (empty_instructions_lock_out first_registration
           (mkEditTenantArgs (Some EmptyString) None) "thread_1" "4915112345"
           with_agent eq_refl (mk_is_Some _ _ eq_refl) eq_refl).
Defined.
